(** * PaddleMIX / ppdiffusers: activation modules and the SD3 inference example

    A shallow embedding of

    - [ppdiffusers/models/activations.py]: [get_activation], [GELU],
      [GEGLU], [ApproximateGELU];
    - [examples/inference/text_to_image_generation-stable_diffusion_3.py]:
      the argument table of [parse_args] and the script body.

    Conventions of the embedding.

    - Python [str] values are [string]s; [str.lower] is modelled on ASCII
      text, where it maps [A]..[Z] to [a]..[z] and leaves every other
      character alone.
    - A tensor is its last axis length together with its rows (all leading
      axes flattened into one).  Scalars and the scalar primitives of the
      framework ([F.gelu], [F.sigmoid], addition, multiplication, the literal
      [1.702]) are the fields of a class: no algebraic law is assumed of
      them, so every statement also holds of floating point arithmetic.
    - A Python exception is an [Err] result; a shape error of the framework
      is [None].
    - The script is a computation in a state monad whose state carries the
      random generator, the number of clock readings taken so far and the
      trace of externally visible events.  [Script.main] is the script
      from its first statement with [parse_args] returning the namespace
      [args]; [Argv.script] is the script on the tokens of a command line,
      where [argparse] may exit instead.  Every pipeline call returns an
      image.
    - The float arithmetic of the timing code is done over the rationals. *)

From Stdlib Require Import ZArith QArith Ascii String List Lia.
From stdpp Require Import base option list strings gmap.

Close Scope Q_scope.
Local Open Scope string_scope.

(* ===================================================================== *)
(** * Strings *)
(* ===================================================================== *)

Module Str.

(** [c.lower()] for one ASCII character. *)
Definition lower_ascii (c : ascii) : ascii :=
    let n := N_of_ascii c in
    if ((65 <=? n) && (n <=? 90))%N then ascii_of_N (n + 32) else c.

(** [s.lower()]. *)
Fixpoint lower (s : string) : string :=
    match s with
    | EmptyString => EmptyString
    | String c s' => String (lower_ascii c) (lower s')
    end.

(** [str(x)] for an [x] that already is a string. *)
Definition str (x : string) : string := x.

End Str.

(* ===================================================================== *)
(** * Results of fallible Python code *)
(* ===================================================================== *)

Inductive exn : Type :=
| ValueError (msg : string)
| KeyError (key : string).

Inductive result (A : Type) : Type :=
| Ok (a : A)
| Err (e : exn).

Arguments Ok {A} a.
Arguments Err {A} e.

Definition is_Ok {A} (r : result A) : Prop :=
  match r with Ok _ => True | Err _ => False end.

(* ===================================================================== *)
(** * [get_activation] *)
(* ===================================================================== *)

Module Activations.

(** The layer classes instantiated by [ACTIVATION_FUNCTIONS]. *)
Inductive LayerClass : Type := Silu | Mish | GELU_cls | ReLU.

(** A layer object: its class, and which of the constructor calls of the
      dictionary literal created it (in source order).  None of the four
      classes takes parameters or holds weights. *)
Record Layer : Type := mkLayer {
    layer_class : LayerClass;
    layer_instance : nat
  }.

Global Instance LayerClass_eq_dec : EqDecision LayerClass.
Proof. solve_decision. Defined.

Global Instance Layer_eq_dec : EqDecision Layer.
Proof. solve_decision. Defined.

(** The entries of the module level dictionary, in source order. *)
Definition ACTIVATION_FUNCTIONS_items : list (string * Layer) :=
    [ ("swish", mkLayer Silu 0);
      ("silu",  mkLayer Silu 1);
      ("mish",  mkLayer Mish 2);
      ("gelu",  mkLayer GELU_cls 3);
      ("relu",  mkLayer ReLU 4) ].

Definition ACTIVATION_FUNCTIONS : gmap string Layer :=
    list_to_map ACTIVATION_FUNCTIONS_items.

(** [d[k]] on a Python dict: [KeyError] when the key is absent. *)
Definition dict_getitem {V} (d : gmap string V) (k : string) : result V :=
    match d !! k with
    | Some v => Ok v
    | None => Err (KeyError k)
    end.

(** [k in d]. *)
Definition dict_contains {V} (d : gmap string V) (k : string) : bool :=
    bool_decide (is_Some (d !! k)).

Definition get_activation (act_fn : string) : result Layer :=
    let act_fn := Str.lower act_fn in
    if dict_contains ACTIVATION_FUNCTIONS act_fn
    then dict_getitem ACTIVATION_FUNCTIONS act_fn
    else Err (ValueError ("Unsupported activation function: " ++ act_fn)).

(** The names the dictionary knows. *)
Definition activation_names : list string :=
    ["swish"; "silu"; "mish"; "gelu"; "relu"].

End Activations.

(* ===================================================================== *)
(** * The argument table of [parse_args] *)
(* ===================================================================== *)

Module Cli.

(** A converted argument value. *)
Inductive ArgValue : Type :=
  | VBool (b : bool)
  | VInt (z : Z).

(** One [parser.add_argument] call.  The converter returns [None] when
      the Python callable raises, which [argparse] reports as an invalid
      value. *)
Record Argument : Type := mkArgument {
    arg_flag : string;
    arg_type : string -> option ArgValue;
    arg_default : ArgValue
  }.

(** [lambda x: str(x).lower() in ["true", "1", "yes"]] *)
Definition bool_flag_type (x : string) : bool :=
    bool_decide (Str.lower (Str.str x) ∈ ["true"; "1"; "yes"]).

Section Parser.
(** Python's [int] applied to a string: a framework primitive. *)
Variable py_int : string -> option Z.

Definition int_type (x : string) : option ArgValue := VInt <$> py_int x.

Definition parser_arguments : list Argument :=
      [ mkArgument "--benchmark"
          (fun x => Some (VBool (bool_flag_type x))) (VBool false);
        mkArgument "--inference_optimize"
          (fun x => Some (VBool (bool_flag_type x))) (VBool false);
        mkArgument "--inference_optimize_triton"
          (fun x => Some (VBool (bool_flag_type x))) (VBool false);
        mkArgument "--height" int_type (VInt 512);
        mkArgument "--width" int_type (VInt 512);
        mkArgument "--num-inference-steps" int_type (VInt 50) ].
End Parser.

Definition boolean_flags : list string :=
    ["--benchmark"; "--inference_optimize"; "--inference_optimize_triton"].

(** The parsed namespace. *)
Record Args : Type := mkArgs {
    benchmark : bool;
    inference_optimize : bool;
    inference_optimize_triton : bool;
    height : Z;
    width : Z;
    num_inference_steps : Z
  }.

End Cli.

(* ===================================================================== *)
(** * Tensors and the framework's primitives *)
(* ===================================================================== *)

(** The scalar side of the framework.  [gelu_s approximate] is [F.gelu] on
    one element, with its [approximate] flag; [lit_1_702] is the literal
    [1.702]. *)
Class Scalars : Type := {
  scalar : Type;
  szero : scalar;
  sadd : scalar -> scalar -> scalar;
  smul : scalar -> scalar -> scalar;
  lit_1_702 : scalar;
  gelu_s : bool -> scalar -> scalar;
  sigmoid_s : scalar -> scalar
}.

Module Tensor.
Section Ops.
Context `{Scalars}.

(** A tensor seen along its last axis. *)
Record t : Type := mk {
      last_dim : nat;
      rows : list (list scalar)
    }.

(** Every row has the length the shape announces. *)
Definition wf (x : t) : Prop :=
      Forall (fun r => length r = last_dim x) (rows x).

Definition wfb (x : t) : bool :=
      forallb (fun r => Nat.eqb (length r) (last_dim x)) (rows x).

(** Element [j] of row [i]. *)
Definition cell (x : t) (i j : nat) : option scalar :=
      r ← rows x !! i; r !! j.

Definition column (j : nat) (w : t) : list scalar :=
      map (fun r => nth j r szero) (rows w).

Definition dot (u v : list scalar) : scalar :=
      fold_left sadd (zip_with smul u v) szero.

(** [paddle.matmul(x, w)] for a two dimensional [w]: the last axis of
        [x] has to be the number of rows of [w]. *)
Definition matmul (x w : t) : option t :=
      if Nat.eqb (last_dim x) (length (rows w))
      then Some (mk (last_dim w)
                    (map (fun r => map (fun j => dot r (column j w))
                                       (seq 0 (last_dim w)))
                         (rows x)))
      else None.

(** [x + b] for a bias vector [b] along the last axis. *)
Definition add_bias (x : t) (b : list scalar) : option t :=
      if Nat.eqb (last_dim x) (length b)
      then Some (mk (last_dim x) (map (fun r => zip_with sadd r b) (rows x)))
      else None.

(** An elementwise function. *)
Definition map_elem (f : scalar -> scalar) (x : t) : t :=
      mk (last_dim x) (map (map f) (rows x)).

(** [x * y] on tensors of one shape. *)
Definition mul (x y : t) : t :=
      mk (last_dim x) (zip_with (zip_with smul) (rows x) (rows y)).

(** [c * x] for a Python float [c]. *)
Definition scale (c : scalar) (x : t) : t := map_elem (smul c) x.

(** [x.chunk(2, axis=-1)]: the last axis has to be even. *)
Definition chunk2 (x : t) : option (t * t) :=
      if Nat.even (last_dim x)
      then let h := Nat.div2 (last_dim x) in
           Some (mk h (map (take h) (rows x)), mk h (map (drop h) (rows x)))
      else None.

(** [F.gelu(x, approximate=flag)] and [F.sigmoid(x)]. *)
Definition F_gelu (approximate : bool) (x : t) : t :=
      map_elem (gelu_s approximate) x.

Definition F_sigmoid (x : t) : t := map_elem sigmoid_s x.
End Ops.
End Tensor.

(** [nn.Linear(in_features, out_features)]: a weight of shape
    [[in_features, out_features]] and a bias of length [out_features]. *)
Module Linear.
Section Ops.
Context `{Scalars}.

Record t : Type := mk {
      in_features : nat;
      out_features : nat;
      weight : Tensor.t;
      bias : list scalar
    }.

(** What the constructor establishes, whatever the parameter values. *)
Definition wf (l : t) : Prop :=
      length (Tensor.rows (weight l)) = in_features l /\
      Tensor.last_dim (weight l) = out_features l /\
      Tensor.wf (weight l) /\
      length (bias l) = out_features l.

(** [self.proj(x)], that is [F.linear(x, weight, bias)]. *)
Definition forward (l : t) (x : Tensor.t) : option Tensor.t :=
      y ← Tensor.matmul x (weight l); Tensor.add_bias y (bias l).
End Ops.
End Linear.

(* ===================================================================== *)
(** * Operators of the framework *)
(* ===================================================================== *)

(** An attribute of an operator: a string or a number. *)
Inductive Attr : Type :=
| AStr (s : string)
| ANum (z : Z).

Global Instance Attr_eq_dec : EqDecision Attr.
Proof. solve_decision. Defined.

(** One application of an operator: its type, its named inputs and its
attributes.  An optional input that is [None] is absent from [op_inputs]. *)
Record OpCall `{Scalars} : Type := mkOp {
  op_type : string;
  op_inputs : gmap string Tensor.t;
  op_attrs : gmap string Attr
}.

Arguments mkOp {_} _ _ _.

(** What the module takes from outside this file: the kernel behind an
operator, the constant [USE_PEFT_BACKEND] of [..utils], and the forward pass
of [LoRACompatibleLinear] of [.lora], which receives the layer's parameters,
the input and [scale]. *)
Class Externals `{Scalars} : Type := {
  run_op : OpCall -> option Tensor.t;
  USE_PEFT_BACKEND : bool;
  LoRACompatibleLinear_forward :
    Linear.t -> Tensor.t -> scalar -> option Tensor.t
}.

Module FusedBiasAct.
Section Ops.
Context `{Scalars}.

(** [inputs[k] = v] when [v is not None]. *)
Definition set_input (k : string) (v : option Tensor.t)
    (inputs : gmap string Tensor.t) : gmap string Tensor.t :=
  match v with
  | Some x => <[k := x]> inputs
  | None => inputs
  end.

(** The attribute dictionary both branches pass. *)
Definition attrs (act_method compute_dtype : string)
    (quant_scale quant_round_type quant_max_bound quant_min_bound : Z)
    : gmap string Attr :=
  list_to_map
    [ ("act_method", AStr act_method);
      ("compute_dtype", AStr compute_dtype);
      ("quant_scale", ANum quant_scale);
      ("quant_round_type", ANum quant_round_type);
      ("quant_max_bound", ANum quant_max_bound);
      ("quant_min_bound", ANum quant_min_bound) ].

(** [paddle._C_ops.fused_bias_act(x, bias, dequant_scales, shift, smooth,
act_method, compute_dtype, quant_scale, quant_round_type, quant_max_bound,
quant_min_bound)]: the positional arguments bound to the operator's inputs
and attributes of those names. *)
Definition C_ops_fused_bias_act
    (x : Tensor.t) (bias dequant_scales shift smooth : option Tensor.t)
    (act_method compute_dtype : string)
    (quant_scale quant_round_type quant_max_bound quant_min_bound : Z)
    : OpCall :=
  mkOp "fused_bias_act"
    (set_input "smooth" smooth
      (set_input "shift" shift
        (set_input "dequant_scales" dequant_scales
          (set_input "bias" bias (<["x" := x]> ∅)))))
    (attrs act_method compute_dtype
       quant_scale quant_round_type quant_max_bound quant_min_bound).

(** The operator [helper.append_op] adds in static graph mode. *)
Definition append_op_fused_bias_act
    (ffn1_out : Tensor.t) (bias dequant_scales shift smooth : option Tensor.t)
    (act_method compute_dtype : string)
    (quant_scale quant_round_type quant_max_bound quant_min_bound : Z)
    : OpCall :=
  let inputs : gmap string Tensor.t := ∅ in
  let inputs := <["x" := ffn1_out]> inputs in
  let inputs := set_input "bias" bias inputs in
  mkOp "fused_bias_act" inputs
    (attrs act_method compute_dtype
       quant_scale quant_round_type quant_max_bound quant_min_bound).

End Ops.
End FusedBiasAct.

(* ===================================================================== *)
(** * [GELU] *)
(* ===================================================================== *)

Module GELU.
Section Ops.
Context `{Externals}.

Record t : Type := mk {
  proj : Linear.t;
  approximate : string
}.

(** [F.gelu(gate, approximate=self.approximate != "none")] *)
Definition gelu (self : t) (gate : Tensor.t) : Tensor.t :=
  Tensor.F_gelu (bool_decide (approximate self ≠ "none")) gate.

(** The operator [compute_activation] applies; [dynamic] is the value of
[in_dynamic_mode()]. *)
Definition compute_activation_op (dynamic : bool)
    (ffn1_out : Tensor.t) (bias dequant_scales shift smooth : option Tensor.t)
    (act_method compute_dtype : string)
    (quant_scale quant_round_type quant_max_bound quant_min_bound : Z)
    : OpCall :=
  if dynamic
  then FusedBiasAct.C_ops_fused_bias_act
         ffn1_out bias dequant_scales shift smooth act_method compute_dtype
         quant_scale quant_round_type quant_max_bound quant_min_bound
  else FusedBiasAct.append_op_fused_bias_act
         ffn1_out bias dequant_scales shift smooth act_method compute_dtype
         quant_scale quant_round_type quant_max_bound quant_min_bound.

(** [compute_activation]: the value of [out].  In static graph mode [out]
is the output variable of the appended operator. *)
Definition compute_activation (dynamic : bool)
    (ffn1_out : Tensor.t) (bias dequant_scales shift smooth : option Tensor.t)
    (act_method compute_dtype : string)
    (quant_scale quant_round_type quant_max_bound quant_min_bound : Z)
    : option Tensor.t :=
  run_op (compute_activation_op dynamic
            ffn1_out bias dequant_scales shift smooth act_method compute_dtype
            quant_scale quant_round_type quant_max_bound quant_min_bound).

(** A one dimensional parameter as an operator input. *)
Definition vector (b : list scalar) : Tensor.t := Tensor.mk (length b) [b].

(** [forward]; the arguments [compute_activation] is not given keep their
defaults. *)
Definition forward (dynamic : bool) (self : t) (hidden_states : Tensor.t)
    : option Tensor.t :=
  hidden_states ← Tensor.matmul hidden_states (Linear.weight (proj self));
  compute_activation dynamic
    hidden_states (Some (vector (Linear.bias (proj self)))) None None None
    "gelu" "default" (-1) 0 0 0.

End Ops.
End GELU.

(* ===================================================================== *)
(** * [GEGLU] *)
(* ===================================================================== *)

Module GEGLU.
Section Ops.
Context `{Externals}.

(** [self.proj = linear_cls(dim_in, dim_out * 2)] *)
Record t : Type := mk {
  proj : Linear.t
}.

(** [self.proj(hidden_states, *args)] for
[linear_cls = LoRACompatibleLinear if not USE_PEFT_BACKEND else nn.Linear];
a call with the wrong number of arguments fails. *)
Definition proj_call (self : t) (hidden_states : Tensor.t)
    (args : list scalar) : option Tensor.t :=
  if USE_PEFT_BACKEND
  then match args with
       | [] => Linear.forward (proj self) hidden_states
       | _ => None
       end
  else match args with
       | [scale] => LoRACompatibleLinear_forward (proj self) hidden_states scale
       | _ => None
       end.

(** The arguments [forward] passes on to the projection. *)
Definition proj_output (self : t) (hidden_states : Tensor.t)
    (scale : scalar) : option Tensor.t :=
  proj_call self hidden_states
    (if USE_PEFT_BACKEND then [] else [scale]).

(** [F.gelu(gate)] *)
Definition gelu (gate : Tensor.t) : Tensor.t := Tensor.F_gelu false gate.

Definition forward (self : t) (hidden_states : Tensor.t) (scale : scalar)
    : option Tensor.t :=
  let args := if USE_PEFT_BACKEND then [] else [scale] in
  chunks ← (projected ← proj_call self hidden_states args;
            Tensor.chunk2 projected);
  let '(hidden_states, gate) := chunks in
  Some (Tensor.mul hidden_states (gelu gate)).

End Ops.
End GEGLU.

(* ===================================================================== *)
(** * [ApproximateGELU] *)
(* ===================================================================== *)

Module ApproximateGELU.
Section Ops.
Context `{Scalars}.

Record t : Type := mk {
  proj : Linear.t
}.

Definition forward (self : t) (x : Tensor.t) : option Tensor.t :=
  x ← Linear.forward (proj self) x;
  Some (Tensor.mul x (Tensor.F_sigmoid (Tensor.scale lit_1_702 x))).

End Ops.
End ApproximateGELU.

(* ===================================================================== *)
(** * The constructors *)
(* ===================================================================== *)

Module Init.
Section Ops.
Context `{Scalars}.

(** The values the framework's initialisers give a new [nn.Linear]: the
weight entry of an input and an output feature, the bias entry of an
output feature. *)
Record Initializer : Type := mkInitializer {
  init_weight : nat -> nat -> scalar;
  init_bias : nat -> scalar
}.

(** [nn.Linear(in_features, out_features)] *)
Definition Linear_init (ini : Initializer) (in_features out_features : nat)
    : Linear.t :=
  Linear.mk in_features out_features
    (Tensor.mk out_features
       (map (fun i => map (fun j => init_weight ini i j) (seq 0 out_features))
            (seq 0 in_features)))
    (map (init_bias ini) (seq 0 out_features)).

(** [GELU(dim_in, dim_out, approximate)] *)
Definition GELU_init (ini : Initializer) (dim_in dim_out : nat)
    (approximate : string) : GELU.t :=
  GELU.mk (Linear_init ini dim_in dim_out) approximate.

(** [GEGLU(dim_in, dim_out)]: [self.proj = linear_cls(dim_in, dim_out * 2)] *)
Definition GEGLU_init (ini : Initializer) (dim_in dim_out : nat) : GEGLU.t :=
  GEGLU.mk (Linear_init ini dim_in (dim_out * 2)).

(** [ApproximateGELU(dim_in, dim_out)] *)
Definition ApproximateGELU_init (ini : Initializer) (dim_in dim_out : nat)
    : ApproximateGELU.t :=
  ApproximateGELU.mk (Linear_init ini dim_in dim_out).

End Ops.
End Init.

(* ===================================================================== *)
(** * The example script *)
(* ===================================================================== *)

Module Script.

(** ** Dates and durations *)

(** A [datetime.datetime] of the local clock, as its position in
microseconds on that clock's time line. *)
Definition datetime : Type := Z.

(** A [datetime.timedelta] in its normal form: any number of [days],
[0 <= seconds < 86400] and [0 <= microseconds < 1000000]. *)
Record timedelta : Type := mkDelta {
  days : Z;
  seconds : Z;
  microseconds : Z
}.

Definition us_per_second : Z := 1000000.
Definition us_per_day : Z := 86400 * us_per_second.

(** [endtime - starttime] *)
Definition datetime_sub (endtime starttime : datetime) : timedelta :=
  let us := (endtime - starttime)%Z in
  mkDelta (us / us_per_day)
          ((us mod us_per_day) / us_per_second)
          (us mod us_per_second).

(** The duration a [timedelta] stands for, in milliseconds. *)
Definition total_ms (d : timedelta) : Q :=
  (inject_Z ((days d * 86400 + seconds d) * us_per_second + microseconds d)
   / inject_Z 1000)%Q.

(** [duringtime.seconds * 1000 + duringtime.microseconds / 1000.0], over
the rationals. *)
Definition time_ms (duringtime : timedelta) : Q :=
  (inject_Z (seconds duringtime * 1000)
   + inject_Z (microseconds duringtime) / inject_Z 1000)%Q.

(** ** The world the script runs in *)

(** The pipeline call, the random generator it advances, the clock and the
memory counter are the framework's.  [now n] is what the [n]-th call of
[datetime.datetime.now()] returns. *)
Class World : Type := {
  Image : Type;
  Generator : Type;
  manual_seed : Z -> Generator;
  pipe : string -> Z -> Z -> Z -> Generator -> Image * Generator;
  now : nat -> datetime;
  max_memory_allocated : Z
}.

Section Run.
Context `{World}.

(** What the script does to the outside, in order. *)
Inductive Event : Type :=
| EvSetEnv (key value : string)
| EvFromPretrained (path : string)
| EvGenerate (prompt : string) (steps width height : Z) (image : Image)
| EvSynchronize
| EvNow (t : datetime)
| EvPrintAve (ave_ms : Q)
| EvPrintMem (gib : Q)
| EvSave (image : Image) (path : string).

Record State : Type := mkState {
  generator : Generator;
  clock_reads : nat;
  trace : list Event
}.

(** The state monad of the script. *)
Definition M (A : Type) : Type := State -> A * State.

Definition ret {A} (a : A) : M A := fun s => (a, s).

Definition bind {A B} (m : M A) (k : A -> M B) : M B :=
  fun s => let '(a, s') := m s in k a s'.

Notation "'let*' x := m 'in' k" := (bind m (fun x => k))
  (at level 10, x name, m at level 100, k at level 200).
Notation "m >> k" := (bind m (fun _ => k))
  (at level 100, k at level 200, right associativity).

Definition emit (e : Event) : M unit :=
  fun s => (tt, mkState (generator s) (clock_reads s) (trace s ++ [e])).

(** [os.environ[key] = value] *)
Definition set_env (key value : string) : M unit := emit (EvSetEnv key value).

Definition model_path : string :=
  "/root/.cache/huggingface/hub/models--stabilityai--stable-diffusion-3-medium-diffusers/snapshots/stable-diffusion-3-medium-diffusers".

Definition prompt : string := "A cat holding a sign that says hello world".

Definition result_path : string :=
  "text_to_image_generation-stable_diffusion_3-result.png".

(** [pipe(prompt, num_inference_steps=..., width=..., height=...,
generator=generator).images[0]] *)
Definition generate (args : Cli.Args) : M Image :=
  fun s =>
    let '(image, g) :=
      pipe prompt (Cli.num_inference_steps args) (Cli.width args)
           (Cli.height args) (generator s) in
    (image,
     mkState g (clock_reads s)
       (trace s ++ [EvGenerate prompt (Cli.num_inference_steps args)
                      (Cli.width args) (Cli.height args) image])).

(** [paddle.device.synchronize()] *)
Definition synchronize : M unit := emit EvSynchronize.

(** [datetime.datetime.now()] *)
Definition datetime_now : M datetime :=
  fun s =>
    let t := now (clock_reads s) in
    (t, mkState (generator s) (S (clock_reads s)) (trace s ++ [EvNow t])).

(** [for i in range(n): image = pipe(...).images[0]] *)
Fixpoint generate_loop (n : nat) (args : Cli.Args) (image : Image) : M Image :=
  match n with
  | O => ret image
  | S n' => let* image := generate args in generate_loop n' args image
  end.

(** [paddle.device.cuda.max_memory_allocated() / (1024**3)] *)
Definition cuda_mem_after_used : Q :=
  (inject_Z max_memory_allocated / inject_Z (1024 ^ 3))%Q.

(** The body of [if args.benchmark:]. *)
Definition benchmark_body (args : Cli.Args) (image : Image) : M Image :=
  let* image := generate_loop 5 args image in
  let repeat_times := 10%nat in
  synchronize >>
  let* starttime := datetime_now in
  let* image := generate_loop repeat_times args image in
  synchronize >>
  let* endtime := datetime_now in
  let duringtime := datetime_sub endtime starttime in
  let time_ms := time_ms duringtime in
  emit (EvPrintAve (time_ms / inject_Z (Z.of_nat repeat_times))%Q) >>
  emit (EvPrintMem cuda_mem_after_used) >>
  ret image.

(** The average the benchmark prints for two clock readings. *)
Definition printed_average (starttime endtime : datetime) : Q :=
  (time_ms (datetime_sub endtime starttime) / inject_Z (Z.of_nat 10))%Q.

(** The events of the benchmark body after the warm-up. *)
Definition timed_events (starttime endtime : datetime) (timed : list Event)
    : list Event :=
  [EvSynchronize; EvNow starttime] ++ timed ++
  [EvSynchronize; EvNow endtime;
   EvPrintAve (printed_average starttime endtime);
   EvPrintMem cuda_mem_after_used].

(** The script, from its first statement, once [parse_args] has returned
[args]. *)
Definition main (args : Cli.Args) : M unit :=
  set_env "FLAGS_use_cuda_managed_memory" "true" >>
  emit (EvFromPretrained model_path) >>
  (if Cli.inference_optimize args
   then set_env "INFERENCE_OPTIMIZE" "True" else ret tt) >>
  (if Cli.inference_optimize_triton args
   then set_env "INFERENCE_OPTIMIZE_TRITON" "True" else ret tt) >>
  let* image := generate args in
  let* image := (if Cli.benchmark args
                 then benchmark_body args image else ret image) in
  emit (EvSave image result_path).

(** The state before the first statement; the generator is
[paddle.Generator().manual_seed(42)]. *)
Definition initial : State := mkState (manual_seed 42) 0 [].

Definition run (args : Cli.Args) : list Event :=
  trace (snd (main args initial)).

(** ** Observations on a trace *)

Definition is_generate (e : Event) : bool :=
  match e with EvGenerate _ _ _ _ _ => true | _ => false end.

Definition is_save (e : Event) : bool :=
  match e with EvSave _ _ => true | _ => false end.

Definition is_timing (e : Event) : bool :=
  match e with
  | EvSynchronize | EvNow _ | EvPrintAve _ | EvPrintMem _ => true
  | _ => false
  end.

(** The image of the last generation of a trace. *)
Definition last_generated (tr : list Event) : option Image :=
  fold_left (fun acc e => match e with
                          | EvGenerate _ _ _ _ image => Some image
                          | _ => acc
                          end) tr None.

(** A generation of [prompt] with the sizes of [args]. *)
Definition generates (args : Cli.Args) (e : Event) : Prop :=
  exists image,
    e = EvGenerate prompt (Cli.num_inference_steps args) (Cli.width args)
          (Cli.height args) image.

(** The events between loading the pipeline and the first generation. *)
Definition setup_events (args : Cli.Args) : list Event :=
  (if Cli.inference_optimize args
   then [EvSetEnv "INFERENCE_OPTIMIZE" "True"] else []) ++
  (if Cli.inference_optimize_triton args
   then [EvSetEnv "INFERENCE_OPTIMIZE_TRITON" "True"] else []).

(** What the first generation, the benchmark and the saving of the image
add to a trace. *)
Definition generated_part (args : Cli.Args) (clock : nat)
    (first : Event) (image0 : Image) (bench : list Event) (image : Image)
    : Prop :=
  first = EvGenerate prompt (Cli.num_inference_steps args) (Cli.width args)
            (Cli.height args) image0 /\
  if Cli.benchmark args
  then exists warm timed,
         bench = (warm ++ timed_events (now clock) (now (S clock)) timed)%list /\
         length warm = 5 /\ Forall (generates args) warm /\
         Forall (fun e => is_generate e = true) warm /\
         length timed = 10 /\ Forall (generates args) timed /\
         Forall (fun e => is_generate e = true) timed /\
         last_generated timed = Some image
  else bench = [] /\ image = image0.

End Run.
End Script.

(* ===================================================================== *)
(** * What a run generates *)
(* ===================================================================== *)

Module ScriptObs.
Import Script.
Section Ops.
Context `{World}.

(** The state of the generator after [n] pipeline calls with the sizes of
[args], starting from [manual_seed 42]. *)
Fixpoint generator_after (args : Cli.Args) (n : nat) : Generator :=
  match n with
  | O => manual_seed 42
  | S n' =>
      snd (pipe prompt (Cli.num_inference_steps args) (Cli.width args)
             (Cli.height args) (generator_after args n'))
  end.

(** The image of pipeline call number [n], counted from zero. *)
Definition nth_image (args : Cli.Args) (n : nat) : Image :=
  fst (pipe prompt (Cli.num_inference_steps args) (Cli.width args)
         (Cli.height args) (generator_after args n)).

(** The images of the generations of a trace, in order. *)
Definition generated_images (tr : list Event) : list Image :=
  omap (fun e => match e with
                 | EvGenerate _ _ _ _ image => Some image
                 | _ => None
                 end) tr.

(** The number of pipeline calls of a run. *)
Definition pipeline_calls (args : Cli.Args) : nat :=
  if Cli.benchmark args then 16 else 1.

(** A computation of the script started in a state with [P] ends in a
state with [Q] of its result. *)
Definition hoare {A} (P : State -> Prop) (m : M A)
    (Q : A -> State -> Prop) : Prop :=
  forall s, P s -> Q (fst (m s)) (snd (m s)).

(** After [n] pipeline calls: the generator has been advanced [n] times,
the trace holds the images of these calls in order, every generation in it
has the prompt and the sizes of [args], and nothing has been saved. *)
Definition tracked (args : Cli.Args) (n : nat) (s : State) : Prop :=
  generator s = generator_after args n /\
  generated_images (trace s) = map (nth_image args) (seq 0 n) /\
  Forall (fun e => is_generate e = true -> generates args e) (trace s) /\
  List.filter is_save (trace s) = [].

End Ops.
End ScriptObs.

(* ===================================================================== *)
(** * The command line *)
(* ===================================================================== *)

(** [parse_args()] on the tokens of the command line, and the script from
its first statement for a command line.  [argparse] is the library's.  Its
behaviour is written out for the command lines in which every token that
starts with [-] is one of the parser's option strings: there an option
takes the next token as its value, [-h] and [--help] print the help and
exit, and a missing value, a value the converter refuses or a token that
belongs to no option make [argparse] report an error and exit.  What the
library does with any other command line (abbreviated options, [--flag=v],
[--], values that start with [-]) and Python's [int] are taken as given. *)
Module Argv.
Import Cli Script.

Class CommandLine : Type := {
  py_int : string -> option Z;
  argparse_irregular : list string -> option Args
}.

Section Ops.
Context `{CommandLine} `{World}.

(** The options [--help] adds to every parser. *)
Definition help_strings : list string := ["-h"; "--help"].

Definition option_strings : list string :=
  help_strings ++ map arg_flag (parser_arguments py_int).

Definition starts_with_dash (token : string) : bool :=
  match token with
  | String "-" _ => true
  | _ => false
  end.

Definition regular_token (token : string) : bool :=
  negb (starts_with_dash token) || bool_decide (token ∈ option_strings).

Definition regular (argv : list string) : bool := forallb regular_token argv.

(** The attribute of the namespace an option is stored under: the option
string without its two dashes, with [_] for every [-]. *)
Fixpoint dashes_to_underscores (s : string) : string :=
  match s with
  | EmptyString => EmptyString
  | String "-" s' => String "_" (dashes_to_underscores s')
  | String c s' => String c (dashes_to_underscores s')
  end.

Definition dest (flag : string) : string :=
  match flag with
  | String "-" (String "-" name) => dashes_to_underscores name
  | _ => dashes_to_underscores flag
  end.

Definition find_argument (flag : string) : option Argument :=
  List.find (fun a => String.eqb (arg_flag a) flag) (parser_arguments py_int).

(** The namespace before any token is read: every default. *)
Definition defaults : gmap string ArgValue :=
  list_to_map
    (map (fun a => (dest (arg_flag a), arg_default a))
         (parser_arguments py_int)).

(** The tokens from left to right; [None] when [argparse] exits. *)
Fixpoint parse_regular (argv : list string) (namespace : gmap string ArgValue)
    : option (gmap string ArgValue) :=
  match argv with
  | [] => Some namespace
  | token :: rest =>
      if bool_decide (token ∈ help_strings) then None
      else match find_argument token with
           | None => None
           | Some a =>
               match rest with
               | [] => None
               | value :: rest' =>
                   if starts_with_dash value then None
                   else match arg_type a value with
                        | None => None
                        | Some v =>
                            parse_regular rest'
                              (<[dest (arg_flag a) := v]> namespace)
                        end
               end
           end
  end.

(** Python's truth value and integer value of a stored argument. *)
Definition truth (v : ArgValue) : bool :=
  match v with
  | VBool b => b
  | VInt z => negb (Z.eqb z 0)
  end.

Definition integer (v : ArgValue) : Z :=
  match v with
  | VBool b => if b then 1 else 0
  | VInt z => z
  end.

(** [args.name]; every attribute read by the script has a default. *)
Definition getattr (namespace : gmap string ArgValue) (name : string)
    : ArgValue :=
  default (VBool false) (namespace !! name).

Definition namespace_args (namespace : gmap string ArgValue) : Args :=
  mkArgs (truth (getattr namespace "benchmark"))
         (truth (getattr namespace "inference_optimize"))
         (truth (getattr namespace "inference_optimize_triton"))
         (integer (getattr namespace "height"))
         (integer (getattr namespace "width"))
         (integer (getattr namespace "num_inference_steps")).

(** [parse_args()]; [None] when [argparse] exits. *)
Definition parse_args (argv : list string) : option Args :=
  if regular argv
  then namespace_args <$> parse_regular argv defaults
  else argparse_irregular argv.

(** The statements before [args = parse_args()]. *)
Definition startup : M unit :=
  bind (set_env "FLAGS_use_cuda_managed_memory" "true")
       (fun _ => emit (EvFromPretrained model_path)).

(** The events before [parse_args] is called. *)
Definition startup_events : list Event :=
  [EvSetEnv "FLAGS_use_cuda_managed_memory" "true";
   EvFromPretrained model_path].

(** The statements after it. *)
Definition after_parse (args : Args) : M unit :=
  bind (if inference_optimize args
        then set_env "INFERENCE_OPTIMIZE" "True" else ret tt)
    (fun _ =>
  bind (if inference_optimize_triton args
        then set_env "INFERENCE_OPTIMIZE_TRITON" "True" else ret tt)
    (fun _ =>
  bind (generate args)
    (fun image =>
  bind (if benchmark args then benchmark_body args image else ret image)
    (fun image => emit (EvSave image result_path))))).

(** How a run ends, with the events up to there: [argparse] has exited, or
the last statement has been executed. *)
Inductive Outcome : Type :=
| Exited (events : list Event)
| Completed (events : list Event).

Definition events_of (o : Outcome) : list Event :=
  match o with
  | Exited events | Completed events => events
  end.

(** The script on a command line. *)
Definition script (argv : list string) : Outcome :=
  let s := snd (startup initial) in
  match parse_args argv with
  | None => Exited (trace s)
  | Some args => Completed (trace (snd (after_parse args s)))
  end.

End Ops.
End Argv.

(* ===================================================================== *)
(** * A small interpretation to run the definitions on *)
(* ===================================================================== *)

(** Integers for scalars, with integer stand-ins for the scalar
primitives; an operator table that knows [fused_bias_act] as "add the bias,
then apply the activation"; a pipeline that numbers its images.  None of
the theorems below depends on this module: it gives the concrete inputs on
which they are exercised. *)
Module Sample.

Definition scalars : Scalars := {|
  scalar := Z;
  szero := 0%Z;
  sadd := Z.add;
  smul := Z.mul;
  lit_1_702 := 2%Z;
  gelu_s := fun approximate v => if approximate then (v * v)%Z else Z.max 0 v;
  sigmoid_s := fun v => if (0 <=? v)%Z then 1%Z else 0%Z
|}.

Definition fused_bias_act_kernel (op : @OpCall scalars)
    : option (@Tensor.t scalars) :=
  x ← op_inputs op !! "x";
  y ← match op_inputs op !! "bias" with
      | Some b => Tensor.add_bias x (hd [] (Tensor.rows b))
      | None => Some x
      end;
  match op_attrs op !! "act_method" with
  | Some (AStr "gelu") => Some (Tensor.F_gelu false y)
  | _ => None
  end.

Definition externals : @Externals scalars := {|
  run_op := fun op =>
    if String.eqb (op_type op) "fused_bias_act"
    then fused_bias_act_kernel op else None;
  USE_PEFT_BACKEND := true;
  LoRACompatibleLinear_forward := fun l x _ => Linear.forward l x
|}.

(** A projection from 2 to 2 features. *)
Definition linear : @Linear.t scalars :=
  @Linear.mk scalars 2 2 (@Tensor.mk scalars 2 [[1; 2]; [3; 4]]%Z) [10; 20]%Z.

(** The identity projection on 2 features. *)
Definition linear01 : @Linear.t scalars :=
  @Linear.mk scalars 2 2 (@Tensor.mk scalars 2 [[1; 0]; [0; 1]]%Z) [0; 0]%Z.

Definition input : @Tensor.t scalars := @Tensor.mk scalars 2 [[1; 1]]%Z.

Definition input01 : @Tensor.t scalars := @Tensor.mk scalars 2 [[0; 1]]%Z.

(** A pipeline whose image is the number of the generator state it was
given, a clock that advances by 25 seconds per reading. *)
Definition world : Script.World := {|
  Script.Image := nat;
  Script.Generator := nat;
  Script.manual_seed := Z.to_nat;
  Script.pipe := fun _ _ _ _ g => (g, S g);
  Script.now := fun n => (Z.of_nat n * 25000000)%Z;
  Script.max_memory_allocated := 8589934592%Z
|}.

Definition benchmark_args : Cli.Args := Cli.mkArgs true false false 512 512 50.

Definition plain_args : Cli.Args := Cli.mkArgs false true false 512 512 50.

End Sample.

(** Initial parameter values for the sample constructors. *)
Module SampleInit.

Definition initializer : @Init.Initializer Sample.scalars :=
  @Init.mkInitializer Sample.scalars
    (fun i j => Z.of_nat (i + 2 * j + 1)) (fun j => Z.of_nat (10 * j)).

Definition input3 : @Tensor.t Sample.scalars :=
  @Tensor.mk Sample.scalars 3 [[1; 1; 1]]%Z.

End SampleInit.

(** A command line interpretation for the sample runs: decimal digits
for [int], and a library that refuses what is not written out above.  A
clock whose readings are one day and one second apart. *)
Module SampleArgv.

Fixpoint digits (s : string) (acc : Z) : option Z :=
  match s with
  | EmptyString => Some acc
  | String c s' =>
      let n := Z.of_N (N_of_ascii c) in
      if ((48 <=? n) && (n <=? 57))%Z
      then digits s' (10 * acc + (n - 48))%Z
      else None
  end.

Definition command_line : Argv.CommandLine := {|
  Argv.py_int := fun s =>
    match s with
    | EmptyString => None
    | _ => digits s 0
    end;
  Argv.argparse_irregular := fun _ => None
|}.

Definition slow_world : Script.World := {|
  Script.Image := nat;
  Script.Generator := nat;
  Script.manual_seed := Z.to_nat;
  Script.pipe := fun _ _ _ _ g => (g, S g);
  Script.now := fun n => (Z.of_nat n * 86401000000)%Z;
  Script.max_memory_allocated := 8589934592%Z
|}.

End SampleArgv.

(* ===================================================================== *)
(** * Properties of [get_activation] *)
(* ===================================================================== *)

Module ActivationsFacts.
Import Activations.

Lemma activation_names_keys :
  ACTIVATION_FUNCTIONS_items.*1 = activation_names.
Proof. reflexivity. Qed.

Lemma lookup_known (k : string) :
  k ∈ activation_names ->
  exists layer, ACTIVATION_FUNCTIONS !! k = Some layer.
Proof.
  intros Hk. rewrite <- activation_names_keys in Hk.
  destruct (ACTIVATION_FUNCTIONS !! k) as [layer|] eqn:E; [by eexists|].
  apply not_elem_of_list_to_map in E. contradiction.
Qed.

Lemma lookup_unknown (k : string) :
  k ∉ activation_names -> ACTIVATION_FUNCTIONS !! k = None.
Proof.
  intros Hk. apply not_elem_of_list_to_map.
  by rewrite activation_names_keys.
Qed.

Lemma get_activation_known (act_fn : string) (layer : Layer) :
  ACTIVATION_FUNCTIONS !! Str.lower act_fn = Some layer ->
  get_activation act_fn = Ok layer.
Proof.
  intros E. unfold get_activation, dict_contains, dict_getitem.
  rewrite E. by rewrite bool_decide_eq_true_2.
Qed.

Lemma get_activation_unknown (act_fn : string) :
  ACTIVATION_FUNCTIONS !! Str.lower act_fn = None ->
  get_activation act_fn =
    Err (ValueError ("Unsupported activation function: " ++ Str.lower act_fn)).
Proof.
  intros E. unfold get_activation, dict_contains.
  rewrite E. rewrite bool_decide_eq_false_2; [done|].
  by intros [? ?].
Qed.

(** The two [nn.Silu()] calls of the dictionary literal make two objects:
["swish"] and ["silu"] map to layers of one class that are not one
instance. *)
Lemma swish_silu_instances :
  get_activation "swish" = Ok (mkLayer Silu 0) /\
  get_activation "silu" = Ok (mkLayer Silu 1).
Proof. split; by apply get_activation_known. Qed.

Example get_activation_mixed_case :
  get_activation "GeLU" = Ok (mkLayer GELU_cls 3).
Proof. by apply get_activation_known. Qed.

Example get_activation_tanh :
  get_activation "Tanh" =
    Err (ValueError "Unsupported activation function: tanh").
Proof. by apply get_activation_unknown. Qed.

(** As objects the two differ: the claim that [swish] and [silu] return
the same module fails. *)
Lemma swish_silu_not_same_module :
  get_activation "swish" <> get_activation "silu".
Proof. destruct swish_silu_instances as [-> ->]. discriminate. Qed.

(** C9, amended.  [get_activation act_fn] returns a layer exactly when the
lower cased [act_fn] is one of [swish], [silu], [mish], [gelu], [relu], and
the layer is the dictionary's entry for that name; otherwise it raises
[ValueError], and never any other exception.  Only the lower cased name
matters, so the lookup ignores case.  [swish] and [silu] both give a layer
of class [Silu], and the two layers are two separate objects. *)
Theorem get_activation_correct (act_fn : string) :
  (is_Ok (get_activation act_fn) <-> Str.lower act_fn ∈ activation_names) /\
  (forall layer, get_activation act_fn = Ok layer <->
                 ACTIVATION_FUNCTIONS !! Str.lower act_fn = Some layer) /\
  (Str.lower act_fn ∉ activation_names ->
   get_activation act_fn =
     Err (ValueError
            ("Unsupported activation function: " ++ Str.lower act_fn))) /\
  (forall e, get_activation act_fn = Err e -> exists msg, e = ValueError msg) /\
  (forall other, Str.lower other = Str.lower act_fn ->
                 get_activation other = get_activation act_fn) /\
  (exists swish silu,
     get_activation "swish" = Ok swish /\ get_activation "silu" = Ok silu /\
     layer_class swish = Silu /\ layer_class silu = Silu /\
     swish <> silu).
Proof.
  destruct (decide (Str.lower act_fn ∈ activation_names)) as [Hin|Hout].
  - destruct (lookup_known _ Hin) as [layer E].
    pose proof (get_activation_known _ _ E) as G.
    repeat split.
    + done.
    + by rewrite G.
    + rewrite G. by intros [= <-].
    + rewrite E. intros [= <-]. exact G.
    + done.
    + rewrite G. discriminate.
    + intros other Hother. unfold get_activation. by rewrite Hother.
    + destruct swish_silu_instances as [-> ->]. do 2 eexists.
      repeat split; discriminate.
  - pose proof (get_activation_unknown _ (lookup_unknown _ Hout)) as G.
    repeat split.
    + rewrite G. intros [].
    + done.
    + rewrite G. discriminate.
    + rewrite (lookup_unknown _ Hout). discriminate.
    + done.
    + rewrite G. intros e [= <-]. by eexists.
    + intros other Hother. unfold get_activation. by rewrite Hother.
    + destruct swish_silu_instances as [-> ->]. do 2 eexists.
      repeat split; discriminate.
Qed.

End ActivationsFacts.

(* ===================================================================== *)
(** * Properties of the boolean flags *)
(* ===================================================================== *)

Module CliFacts.
Import Cli.

Example bool_flag_type_yes : bool_flag_type "YES" = true.
Proof. reflexivity. Qed.

Example bool_flag_type_on : bool_flag_type "on" = false.
Proof. reflexivity. Qed.

Example bool_flag_type_false : bool_flag_type "False" = false.
Proof. reflexivity. Qed.

(** C10.  For each of [--benchmark], [--inference_optimize] and
[--inference_optimize_triton] the converter of the argument table returns
a boolean for every string, never raising; the boolean is [True] exactly
when the lower cased string is one of [true], [1], [yes], and [False] for
every other string. *)
Theorem boolean_flag_converter (py_int : string -> option Z) (s : string) :
  Forall (fun a =>
            arg_flag a ∈ boolean_flags ->
            exists b, arg_type a s = Some (VBool b) /\
                      (b = true <-> Str.lower s ∈ ["true"; "1"; "yes"]) /\
                      (Str.lower s ∉ ["true"; "1"; "yes"] -> b = false))
         (parser_arguments py_int) /\
  Forall (fun flag => exists a, a ∈ parser_arguments py_int /\ arg_flag a = flag)
         boolean_flags.
Proof.
  assert (Hconv : exists b, Some (VBool (bool_flag_type s)) = Some (VBool b) /\
                   (b = true <-> Str.lower s ∈ ["true"; "1"; "yes"]) /\
                   (Str.lower s ∉ ["true"; "1"; "yes"] -> b = false)).
  { exists (bool_flag_type s). unfold bool_flag_type, Str.str.
    split; [done|split].
    - apply bool_decide_eq_true.
    - apply bool_decide_eq_false_2. }
  split.
  - unfold parser_arguments, boolean_flags.
    repeat first [apply Forall_nil_2 | apply Forall_cons_2];
      simpl; intros Hflag; try exact Hconv;
      exfalso; revert Hflag; by apply (bool_decide_unpack (_ ∉ _)).
  - unfold parser_arguments, boolean_flags.
    repeat first [apply Forall_nil_2 | apply Forall_cons_2].
    + eexists. split; [apply elem_of_cons; by left|done].
    + eexists. split; [do 1 (apply elem_of_cons; right);
                       apply elem_of_cons; by left|done].
    + eexists. split; [do 2 (apply elem_of_cons; right);
                       apply elem_of_cons; by left|done].
Qed.

End CliFacts.

(* ===================================================================== *)
(** * Properties of the tensor primitives *)
(* ===================================================================== *)

Module TensorFacts.
Section Facts.
Context `{Scalars}.

Lemma cell_map_elem (f : scalar -> scalar) (x : Tensor.t) (i j : nat) :
  Tensor.cell (Tensor.map_elem f x) i j = f <$> Tensor.cell x i j.
Proof.
  unfold Tensor.cell, Tensor.map_elem; simpl.
  rewrite list_lookup_fmap.
  destruct (Tensor.rows x !! i) as [r|]; simpl; [|done].
  by rewrite list_lookup_fmap.
Qed.

Lemma cell_mul (x y : Tensor.t) (i j : nat) (a b : scalar) :
  Tensor.cell x i j = Some a ->
  Tensor.cell y i j = Some b ->
  Tensor.cell (Tensor.mul x y) i j = Some (smul a b).
Proof.
  unfold Tensor.cell, Tensor.mul; simpl. intros Hx Hy.
  rewrite lookup_zip_with.
  destruct (Tensor.rows x !! i) as [r|]; simpl in *; [|done].
  destruct (Tensor.rows y !! i) as [r'|]; simpl in *; [|done].
  rewrite lookup_zip_with. by rewrite Hx, Hy.
Qed.

Lemma even_double (d : nat) : Nat.even (2 * d) = true.
Proof. by rewrite Nat.even_mul. Qed.

Lemma div2_double (d : nat) : Nat.div2 (2 * d) = d.
Proof. apply Nat.div2_double. Qed.

(** The two halves [chunk2] returns, element by element. *)
Lemma chunk2_double (x : Tensor.t) (d : nat) :
  Tensor.last_dim x = 2 * d ->
  exists lo hi,
    Tensor.chunk2 x = Some (lo, hi) /\
    Tensor.last_dim lo = d /\ Tensor.last_dim hi = d /\
    length (Tensor.rows lo) = length (Tensor.rows x) /\
    length (Tensor.rows hi) = length (Tensor.rows x) /\
    forall i j, j < d ->
      Tensor.cell lo i j = Tensor.cell x i j /\
      Tensor.cell hi i j = Tensor.cell x i (d + j).
Proof.
  intros Hd. unfold Tensor.chunk2. rewrite Hd, even_double, div2_double.
  do 2 eexists. split; [reflexivity|]. simpl.
  rewrite !length_map. repeat split; try done.
  - unfold Tensor.cell; simpl. rewrite list_lookup_fmap.
    destruct (Tensor.rows x !! i) as [r|]; simpl; [|done].
    by apply lookup_take_lt.
  - unfold Tensor.cell; simpl. rewrite list_lookup_fmap.
    destruct (Tensor.rows x !! i) as [r|]; simpl; [|done].
    by rewrite lookup_drop.
Qed.

(** A well formed tensor has a cell at every position of its shape. *)
Lemma cell_defined (x : Tensor.t) (i j : nat) :
  Tensor.wf x -> i < length (Tensor.rows x) -> j < Tensor.last_dim x ->
  is_Some (Tensor.cell x i j).
Proof.
  intros Hwf Hi Hj. unfold Tensor.cell.
  destruct (lookup_lt_is_Some_2 _ _ Hi) as [r Hr]. rewrite Hr; simpl.
  apply lookup_lt_is_Some_2.
  unfold Tensor.wf in Hwf. rewrite Forall_lookup in Hwf.
  by rewrite (Hwf _ _ Hr).
Qed.

(** [nn.Linear] accepts every input whose last axis is [in_features] and
returns a tensor whose last axis is [out_features]. *)
Lemma Linear_forward_shape (l : Linear.t) (x : Tensor.t) :
  Linear.wf l ->
  Tensor.last_dim x = Linear.in_features l ->
  exists y,
    Linear.forward l x = Some y /\
    Tensor.wf y /\
    Tensor.last_dim y = Linear.out_features l /\
    length (Tensor.rows y) = length (Tensor.rows x).
Proof.
  intros (Hrows & Hcols & _ & Hbias) Hx.
  unfold Linear.forward, Tensor.matmul.
  rewrite Hx, Hrows, Nat.eqb_refl; simpl.
  unfold Tensor.add_bias; simpl.
  rewrite Hcols, Hbias, Nat.eqb_refl.
  eexists. split; [reflexivity|]. simpl.
  repeat split.
  - unfold Tensor.wf; simpl.
    rewrite Forall_fmap, Forall_fmap. apply Forall_forall. intros r _; simpl.
    rewrite length_zip_with, length_map, length_seq. lia.
  - by rewrite !length_map.
Qed.

(** One element of [nn.Linear]'s output: the bias added to the product of
the input row with the weight column. *)
Lemma Linear_forward_cell (l : Linear.t) (x y : Tensor.t)
    (i j : nat) (r : list scalar) (b : scalar) :
  Linear.forward l x = Some y ->
  Tensor.rows x !! i = Some r ->
  Linear.bias l !! j = Some b ->
  j < Tensor.last_dim (Linear.weight l) ->
  Tensor.cell y i j =
    Some (sadd (Tensor.dot r (Tensor.column j (Linear.weight l))) b).
Proof.
  unfold Linear.forward, Tensor.matmul, Tensor.add_bias.
  destruct (Nat.eqb _ _); simpl; [|done].
  destruct (Nat.eqb _ _); simpl; [|done].
  intros [= <-] Hr Hb Hj. unfold Tensor.cell; simpl.
  rewrite !list_lookup_fmap, Hr; simpl.
  rewrite lookup_zip_with, list_lookup_fmap, Hb.
  rewrite lookup_seq_lt by done. done.
Qed.

End Facts.
End TensorFacts.

(* ===================================================================== *)
(** * Properties of [ApproximateGELU] and [GEGLU] *)
(* ===================================================================== *)

Module ApproximateGELUFacts.
Section Facts.
Context `{Scalars}.

(** A shape error of the projection is the only failure of [forward]. *)
Lemma ApproximateGELU_forward_None (self : ApproximateGELU.t) (x : Tensor.t) :
  ApproximateGELU.forward self x = None <->
  Linear.forward (ApproximateGELU.proj self) x = None.
Proof.
  unfold ApproximateGELU.forward.
  destruct (Linear.forward _ x); simpl; split; congruence.
Qed.

(** C3.  With [y] the output of the module's linear projection of [x],
[ApproximateGELU.forward x] is [y * sigmoid(1.702 * y)]: a tensor of the
shape of [y] whose every element is the element [v] of [y] at that place
times [sigmoid(1.702 * v)]. *)
Theorem ApproximateGELU_forward_correct (self : ApproximateGELU.t) (x y : Tensor.t) :
  Linear.forward (ApproximateGELU.proj self) x = Some y ->
  exists out,
    ApproximateGELU.forward self x = Some out /\
    out = Tensor.mul y (Tensor.F_sigmoid (Tensor.scale lit_1_702 y)) /\
    Tensor.last_dim out = Tensor.last_dim y /\
    length (Tensor.rows out) = length (Tensor.rows y) /\
    forall i j v,
      Tensor.cell y i j = Some v ->
      Tensor.cell out i j = Some (smul v (sigmoid_s (smul lit_1_702 v))).
Proof.
  intros Hy. unfold ApproximateGELU.forward. rewrite Hy; simpl.
  eexists. split; [reflexivity|]. split; [reflexivity|].
  split; [reflexivity|]. split.
  - unfold Tensor.F_sigmoid, Tensor.scale, Tensor.mul, Tensor.map_elem; simpl.
    rewrite length_zip_with, !length_map. lia.
  - intros i j v Hv. apply TensorFacts.cell_mul; [done|].
    unfold Tensor.F_sigmoid, Tensor.scale.
    by rewrite !TensorFacts.cell_map_elem, Hv.
Qed.

End Facts.
End ApproximateGELUFacts.

Module GEGLUFacts.
Section Facts.
Context `{Externals}.

(** C2.  Let [projected] be what the module's one projection returns, of
width [2 * dim_out].  [GEGLU.forward] cuts it along the last axis into the
halves [hidden_states] (columns [0 .. dim_out - 1]) and [gate] (columns
[dim_out .. 2 * dim_out - 1]) and returns [hidden_states * F.gelu(gate)]:
element [j] of a row is element [j] of the projected row times the exact
GELU of its element [dim_out + j]. *)
Theorem GEGLU_forward_correct (self : GEGLU.t) (hidden_states : Tensor.t)
    (scale : scalar) (projected : Tensor.t) (dim_out : nat) :
  GEGLU.proj_output self hidden_states scale = Some projected ->
  Tensor.last_dim projected = 2 * dim_out ->
  exists first_half gate out,
    Tensor.chunk2 projected = Some (first_half, gate) /\
    GEGLU.forward self hidden_states scale = Some out /\
    out = Tensor.mul first_half (Tensor.F_gelu false gate) /\
    Tensor.last_dim first_half = dim_out /\
    Tensor.last_dim gate = dim_out /\
    Tensor.last_dim out = dim_out /\
    length (Tensor.rows out) = length (Tensor.rows projected) /\
    forall i j, j < dim_out ->
      Tensor.cell first_half i j = Tensor.cell projected i j /\
      Tensor.cell gate i j = Tensor.cell projected i (dim_out + j) /\
      forall a g,
        Tensor.cell projected i j = Some a ->
        Tensor.cell projected i (dim_out + j) = Some g ->
        Tensor.cell out i j = Some (smul a (gelu_s false g)).
Proof.
  intros Hproj Hwidth.
  destruct (TensorFacts.chunk2_double projected dim_out Hwidth)
    as (lo & hi & Hchunk & Hlo & Hhi & Hrlo & Hrhi & Hcells).
  exists lo, hi. eexists.
  split; [exact Hchunk|].
  unfold GEGLU.forward. unfold GEGLU.proj_output in Hproj.
  rewrite Hproj; simpl. rewrite Hchunk; simpl.
  split; [reflexivity|]. split; [reflexivity|].
  repeat split; try done.
  - unfold Tensor.mul, GEGLU.gelu, Tensor.F_gelu, Tensor.map_elem; simpl.
    rewrite length_zip_with, length_map. lia.
  - by apply Hcells.
  - by apply Hcells.
  - intros a g Ha Hg. destruct (Hcells i j) as [Hl Hh]; [done|].
    apply TensorFacts.cell_mul; [by rewrite Hl|].
    unfold GEGLU.gelu, Tensor.F_gelu.
    by rewrite TensorFacts.cell_map_elem, Hh, Hg.
Qed.

(** With [nn.Linear] as the projection class, a module built for
[dim_in] and [dim_out] accepts every input whose last axis is [dim_in]. *)
Lemma GEGLU_forward_peft (self : GEGLU.t) (hidden_states : Tensor.t)
    (scale : scalar) (dim_in dim_out : nat) :
  USE_PEFT_BACKEND = true ->
  Linear.wf (GEGLU.proj self) ->
  Linear.in_features (GEGLU.proj self) = dim_in ->
  Linear.out_features (GEGLU.proj self) = dim_out * 2 ->
  Tensor.last_dim hidden_states = dim_in ->
  exists projected,
    Linear.forward (GEGLU.proj self) hidden_states = Some projected /\
    GEGLU.proj_output self hidden_states scale = Some projected /\
    Tensor.wf projected /\
    Tensor.last_dim projected = 2 * dim_out.
Proof.
  intros Hpeft Hwf Hin Hout Hx.
  destruct (TensorFacts.Linear_forward_shape (GEGLU.proj self) hidden_states)
    as (y & Hy & Hwfy & Hd & _); [done|congruence|].
  exists y. unfold GEGLU.proj_output, GEGLU.proj_call. rewrite Hpeft.
  repeat split; try done. lia.
Qed.

End Facts.
End GEGLUFacts.

(* ===================================================================== *)
(** * Properties of [GELU] *)
(* ===================================================================== *)

Module GELUFacts.
Section Facts.
Context `{Externals}.

Lemma set_input_lookup_ne (k k' : string) (v : option Tensor.t)
    (inputs : gmap string Tensor.t) :
  k ≠ k' -> FusedBiasAct.set_input k v inputs !! k' = inputs !! k'.
Proof.
  intros Hne. destruct v; simpl; [|done]. by rewrite lookup_insert_ne.
Qed.

Lemma set_input_lookup_eq (k : string) (v : option Tensor.t)
    (inputs : gmap string Tensor.t) :
  inputs !! k = None -> FusedBiasAct.set_input k v inputs !! k = v.
Proof.
  intros Hk. destruct v; simpl; [|done]. by rewrite lookup_insert_eq.
Qed.

(** The inputs the dynamic branch hands to the operator. *)
Lemma C_ops_inputs (x : Tensor.t)
    (bias dequant_scales shift smooth : option Tensor.t)
    (act_method compute_dtype : string) (qs qr qmax qmin : Z) :
  let op := FusedBiasAct.C_ops_fused_bias_act x bias dequant_scales shift
              smooth act_method compute_dtype qs qr qmax qmin in
  op_inputs op !! "x" = Some x /\
  op_inputs op !! "bias" = bias /\
  op_inputs op !! "dequant_scales" = dequant_scales /\
  op_inputs op !! "shift" = shift /\
  op_inputs op !! "smooth" = smooth.
Proof.
  simpl. repeat split.
  - rewrite !set_input_lookup_ne by done. by rewrite lookup_insert_eq.
  - rewrite !set_input_lookup_ne by done. by apply set_input_lookup_eq.
  - rewrite !set_input_lookup_ne by done. apply set_input_lookup_eq.
    by rewrite set_input_lookup_ne.
  - rewrite !set_input_lookup_ne by done. apply set_input_lookup_eq.
    by rewrite !set_input_lookup_ne.
  - apply set_input_lookup_eq. by rewrite !set_input_lookup_ne.
Qed.

(** The inputs of the operator the static graph branch appends: the three
quantisation inputs are never among them. *)
Lemma append_op_inputs (x : Tensor.t)
    (bias dequant_scales shift smooth : option Tensor.t)
    (act_method compute_dtype : string) (qs qr qmax qmin : Z) :
  let op := FusedBiasAct.append_op_fused_bias_act x bias dequant_scales shift
              smooth act_method compute_dtype qs qr qmax qmin in
  op_inputs op !! "x" = Some x /\
  op_inputs op !! "bias" = bias /\
  op_inputs op !! "dequant_scales" = None /\
  op_inputs op !! "shift" = None /\
  op_inputs op !! "smooth" = None.
Proof.
  simpl. repeat split.
  - rewrite set_input_lookup_ne by done. by rewrite lookup_insert_eq.
  - by apply set_input_lookup_eq.
  - by rewrite set_input_lookup_ne.
  - by rewrite set_input_lookup_ne.
  - by rewrite set_input_lookup_ne.
Qed.

(** Both branches name the same operator and pass the same attributes. *)
Lemma branches_same_type_attrs (x : Tensor.t)
    (bias dequant_scales shift smooth : option Tensor.t)
    (act_method compute_dtype : string) (qs qr qmax qmin : Z) :
  op_type (GELU.compute_activation_op true x bias dequant_scales shift smooth
             act_method compute_dtype qs qr qmax qmin) =
  op_type (GELU.compute_activation_op false x bias dequant_scales shift smooth
             act_method compute_dtype qs qr qmax qmin) /\
  op_attrs (GELU.compute_activation_op true x bias dequant_scales shift smooth
              act_method compute_dtype qs qr qmax qmin) =
  op_attrs (GELU.compute_activation_op false x bias dequant_scales shift smooth
              act_method compute_dtype qs qr qmax qmin).
Proof. done. Qed.

(** C4.  The two branches of [compute_activation] apply the same operator
to the same inputs exactly when [dequant_scales], [shift] and [smooth] are
all [None]: the dynamic branch passes the three on, the static graph branch
builds its inputs from [ffn1_out] and [bias] alone. *)
Theorem compute_activation_branches (ffn1_out : Tensor.t)
    (bias dequant_scales shift smooth : option Tensor.t)
    (act_method compute_dtype : string)
    (quant_scale quant_round_type quant_max_bound quant_min_bound : Z) :
  GELU.compute_activation_op true ffn1_out bias dequant_scales shift smooth
    act_method compute_dtype
    quant_scale quant_round_type quant_max_bound quant_min_bound =
  GELU.compute_activation_op false ffn1_out bias dequant_scales shift smooth
    act_method compute_dtype
    quant_scale quant_round_type quant_max_bound quant_min_bound
  <-> dequant_scales = None /\ shift = None /\ smooth = None.
Proof.
  split.
  - intros Heq.
    pose proof (C_ops_inputs ffn1_out bias dequant_scales shift smooth
                  act_method compute_dtype quant_scale quant_round_type
                  quant_max_bound quant_min_bound) as (_ & _ & Hd & Hs & Hm).
    pose proof (append_op_inputs ffn1_out bias dequant_scales shift smooth
                  act_method compute_dtype quant_scale quant_round_type
                  quant_max_bound quant_min_bound) as (_ & _ & Hd' & Hs' & Hm').
    unfold GELU.compute_activation_op in Heq. rewrite <- Heq in Hd', Hs', Hm'.
    repeat split; congruence.
  - intros (-> & -> & ->). reflexivity.
Qed.

(** The operator [forward] applies, in either mode. *)
Lemma forward_op (dynamic : bool) (self : GELU.t) (h projected : Tensor.t) :
  Tensor.matmul h (Linear.weight (GELU.proj self)) = Some projected ->
  GELU.forward dynamic self h =
    run_op (mkOp "fused_bias_act"
              (<["bias" := GELU.vector (Linear.bias (GELU.proj self))]>
                 (<["x" := projected]> ∅))
              (FusedBiasAct.attrs "gelu" "default" (-1) 0 0 0)).
Proof.
  intros Hm. unfold GELU.forward. rewrite Hm; simpl.
  unfold GELU.compute_activation. by destruct dynamic.
Qed.

Lemma forward_same_proj (dynamic : bool) (proj : Linear.t)
    (approximate1 approximate2 : string) (h : Tensor.t) :
  GELU.forward dynamic (GELU.mk proj approximate1) h =
  GELU.forward dynamic (GELU.mk proj approximate2) h.
Proof. reflexivity. Qed.

(** [self.gelu] under the two settings of [approximate]. *)
Lemma gelu_none (proj : Linear.t) (gate : Tensor.t) :
  GELU.gelu (GELU.mk proj "none") gate = Tensor.F_gelu false gate.
Proof. reflexivity. Qed.

Lemma gelu_tanh (proj : Linear.t) (gate : Tensor.t) :
  GELU.gelu (GELU.mk proj "tanh") gate = Tensor.F_gelu true gate.
Proof. reflexivity. Qed.

(** C8.  [GELU.forward] does not read [approximate]: two modules with the
same projection give the same output on every input, whatever their
[approximate] settings, and the operator applied always carries
[act_method = "gelu"]. *)
Theorem forward_ignores_approximate (dynamic : bool) (proj : Linear.t)
    (approximate1 approximate2 : string) (h : Tensor.t) :
  GELU.forward dynamic (GELU.mk proj approximate1) h =
  GELU.forward dynamic (GELU.mk proj approximate2) h /\
  (forall projected,
     Tensor.matmul h (Linear.weight proj) = Some projected ->
     exists op,
       GELU.forward dynamic (GELU.mk proj approximate1) h = run_op op /\
       op_type op = "fused_bias_act" /\
       op_attrs op !! "act_method" = Some (AStr "gelu") /\
       op_inputs op !! "x" = Some projected /\
       op_inputs op !! "bias" = Some (GELU.vector (Linear.bias proj))).
Proof.
  split; [apply forward_same_proj|].
  intros projected Hm. eexists. split; [by apply forward_op|].
  repeat split.
Qed.

(** C1.  [self.gelu(self.proj(h))] follows [approximate] and [forward] does
not, so [forward] returns that value under both settings only where
[F.gelu] itself gives the same result with and without the tanh
approximation. *)
Theorem forward_gelu_proj_both (dynamic : bool) (proj : Linear.t)
    (h y : Tensor.t) :
  Linear.forward proj h = Some y ->
  GELU.forward dynamic (GELU.mk proj "none") h =
    Some (GELU.gelu (GELU.mk proj "none") y) ->
  GELU.forward dynamic (GELU.mk proj "tanh") h =
    Some (GELU.gelu (GELU.mk proj "tanh") y) ->
  Tensor.F_gelu false y = Tensor.F_gelu true y.
Proof.
  intros _ Hnone Htanh.
  rewrite (forward_same_proj dynamic proj "none" "tanh" h), Htanh in Hnone.
  rewrite gelu_none, gelu_tanh in Hnone. congruence.
Qed.

End Facts.
End GELUFacts.

(** ** [forward] under the kernel's contract *)

Module GELUContract.
Section Facts.
Context `{Externals}.

(** The contract of the fused kernel for the call [forward] makes: the
bias is added along the last axis and the exact GELU is applied. *)
Hypothesis fused_gelu : forall (x : Tensor.t) (b : list scalar),
  run_op (mkOp "fused_bias_act"
            (<["bias" := GELU.vector b]> (<["x" := x]> ∅))
            (FusedBiasAct.attrs "gelu" "default" (-1) 0 0 0)) =
  Tensor.F_gelu false <$> Tensor.add_bias x b.

(** Under that contract [forward] is the exact GELU of the projection,
whatever [approximate] says. *)
Lemma forward_exact (dynamic : bool) (self : GELU.t) (h : Tensor.t) :
  GELU.forward dynamic self h =
  Tensor.F_gelu false <$> Linear.forward (GELU.proj self) h.
Proof.
  unfold Linear.forward.
  destruct (Tensor.matmul h (Linear.weight (GELU.proj self)))
    as [projected|] eqn:Hm; simpl.
  - rewrite (GELUFacts.forward_op dynamic self h projected Hm).
    apply fused_gelu.
  - unfold GELU.forward. by rewrite Hm.
Qed.

(** So [forward] is [self.gelu(self.proj(h))] for [approximate = "none"]. *)
Lemma forward_none (dynamic : bool) (proj : Linear.t) (h : Tensor.t) :
  GELU.forward dynamic (GELU.mk proj "none") h =
  GELU.gelu (GELU.mk proj "none") <$> Linear.forward proj h.
Proof. by rewrite forward_exact. Qed.

End Facts.
End GELUContract.

(* ===================================================================== *)
(** * Properties of the timing arithmetic *)
(* ===================================================================== *)

Module TimeFacts.
Import Script.

Local Open Scope Z_scope.

(** [datetime_sub] returns a [timedelta] in normal form. *)
Lemma datetime_sub_normal (e s : datetime) :
  let d := datetime_sub e s in
  0 <= seconds d < 86400 /\ 0 <= microseconds d < 1000000.
Proof.
  unfold datetime_sub, us_per_day, us_per_second; simpl.
  split.
  - pose proof (Z.mod_pos_bound (e - s) (86400 * 1000000) ltac:(lia)).
    split; [apply Z.div_pos; lia|apply Z.div_lt_upper_bound; lia].
  - apply Z.mod_pos_bound. lia.
Qed.

(** ... and that [timedelta] stands for the whole difference. *)
Lemma datetime_sub_total (e s : datetime) :
  let d := datetime_sub e s in
  (days d * 86400 + seconds d) * us_per_second + microseconds d = e - s.
Proof.
  unfold datetime_sub, us_per_day, us_per_second; simpl.
  set (us := e - s).
  pose proof (Z.div_mod us (86400 * 1000000) ltac:(lia)) as Hday.
  pose proof (Z.div_mod (us mod (86400 * 1000000)) 1000000 ltac:(lia)) as Hsec.
  assert (Hus : (us mod (86400 * 1000000)) mod 1000000 = us mod 1000000).
  { apply Z.mod_mod_divide. by exists 86400. }
  rewrite Hus in Hsec. lia.
Qed.

(** The days of a difference vanish exactly for a difference of less than
one day that is not negative. *)
Lemma datetime_sub_days (e s : datetime) :
  days (datetime_sub e s) = 0 <-> 0 <= e - s < us_per_day.
Proof.
  unfold datetime_sub, us_per_day, us_per_second; simpl.
  rewrite Z.div_small_iff by lia. lia.
Qed.

(** What the script's formula leaves out of the duration is the days. *)
Lemma time_ms_total_ms (d : timedelta) :
  (time_ms d == total_ms d - inject_Z (days d * 86400000))%Q.
Proof.
  unfold time_ms, total_ms, us_per_second.
  unfold Qeq, Qminus, Qplus, Qdiv, Qmult, Qinv, Qopp, inject_Z; simpl.
  lia.
Qed.

(** One day and one second apart: the formula gives one second. *)
Example time_ms_one_day_one_second :
  let d := datetime_sub (86401 * us_per_second) 0 in
  d = mkDelta 1 1 0 /\
  (time_ms d / inject_Z 10 == inject_Z 100)%Q /\
  (total_ms d / inject_Z 10 == inject_Z 8640100)%Q.
Proof. repeat split. Qed.

(** The clock set back by one second between the two readings. *)
Example time_ms_clock_set_back :
  let d := datetime_sub 0 us_per_second in
  d = mkDelta (-1) 86399 0 /\
  (time_ms d / inject_Z 10 == inject_Z 8639900)%Q /\
  (total_ms d / inject_Z 10 == inject_Z (-100))%Q.
Proof. repeat split. Qed.

(** C7.  The value the benchmark prints, [time_ms / repeat_times], is the
elapsed time [endtime - starttime] in milliseconds divided by 10 exactly
when that elapsed time is at least zero and less than one day; the formula
reads [seconds] and [microseconds] of the difference and not its [days]. *)
Theorem printed_time_is_elapsed (starttime endtime : datetime) :
  (time_ms (datetime_sub endtime starttime) / inject_Z 10 ==
   (inject_Z (endtime - starttime) / inject_Z 1000) / inject_Z 10)%Q
  <-> 0 <= endtime - starttime < us_per_day.
Proof.
  rewrite <- datetime_sub_days.
  pose proof (datetime_sub_total endtime starttime) as Htot.
  pose proof (time_ms_total_ms (datetime_sub endtime starttime)) as Hms.
  cbv zeta in Htot.
  set (d := datetime_sub endtime starttime) in *.
  unfold total_ms in Hms. rewrite Htot in Hms. clearbody d. clear Htot.
  split.
  - intros Heq.
    unfold Qeq, Qminus, Qplus, Qopp, Qdiv, Qmult, Qinv, inject_Z in Heq, Hms.
    simpl in Heq, Hms. lia.
  - intros Hd. rewrite Hms, Hd.
    change (inject_Z (0 * 86400000)) with 0%Q. unfold Qminus.
    by rewrite Qplus_0_r.
Qed.

(** The average of the benchmark against the elapsed time of its two
readings. *)
Lemma printed_average_elapsed (starttime endtime : datetime) :
  (printed_average starttime endtime ==
   (inject_Z (endtime - starttime) / inject_Z 1000) / inject_Z 10)%Q
  <-> 0 <= endtime - starttime < us_per_day.
Proof.
  unfold printed_average. change (Z.of_nat 10) with 10.
  rewrite <- datetime_sub_days.
  pose proof (datetime_sub_total endtime starttime) as Htot.
  pose proof (time_ms_total_ms (datetime_sub endtime starttime)) as Hms.
  cbv zeta in Htot.
  set (d := datetime_sub endtime starttime) in *.
  unfold total_ms in Hms. rewrite Htot in Hms. clearbody d. clear Htot.
  split.
  - intros Heq.
    unfold Qeq, Qminus, Qplus, Qopp, Qdiv, Qmult, Qinv, inject_Z in Heq, Hms.
    simpl in Heq, Hms. lia.
  - intros Hd. rewrite Hms, Hd.
    change (inject_Z (0 * 86400000)) with 0%Q. unfold Qminus.
    by rewrite Qplus_0_r.
Qed.

End TimeFacts.

(* ===================================================================== *)
(** * Properties of the script's trace *)
(* ===================================================================== *)

Module ScriptFacts.
Import Script.
Local Open Scope list_scope.
Section Facts.
Context `{World}.

Lemma last_generated_acc (tr : list Event) (acc : option Image) :
  fold_left (fun acc e => match e with
                          | EvGenerate _ _ _ _ image => Some image
                          | _ => acc
                          end) tr acc =
  match last_generated tr with
  | Some image => Some image
  | None => acc
  end.
Proof.
  unfold last_generated. revert acc.
  induction tr as [|e tr IH]; intros acc; simpl; [done|].
  rewrite IH. rewrite (IH (match e with
                           | EvGenerate _ _ _ _ image => Some image
                           | _ => None
                           end)).
  destruct (fold_left _ tr None); [done|]. by destruct e.
Qed.

Lemma last_generated_app (tr1 tr2 : list Event) :
  last_generated (tr1 ++ tr2) =
  match last_generated tr2 with
  | Some image => Some image
  | None => last_generated tr1
  end.
Proof.
  unfold last_generated at 1. rewrite fold_left_app.
  apply last_generated_acc.
Qed.

(** One generation: one event, the generator advanced, the clock left. *)
Lemma generate_spec (args : Cli.Args) (s : State) :
  exists image g,
    generate args s =
      (image,
       mkState g (clock_reads s)
         (trace s ++ [EvGenerate prompt (Cli.num_inference_steps args)
                        (Cli.width args) (Cli.height args) image])).
Proof.
  unfold generate. destruct (pipe _ _ _ _ _) as [image g]. by do 2 eexists.
Qed.

(** A loop of [n] generations: [n] events, each a generation of [prompt]
with the sizes of [args]; the image it leaves is the last one generated, or
the one it started from when [n] is zero. *)
Lemma generate_loop_spec (n : nat) (args : Cli.Args) (image : Image)
    (s : State) :
  exists gens image' g,
    generate_loop n args image s =
      (image', mkState g (clock_reads s) (trace s ++ gens)) /\
    length gens = n /\
    Forall (generates args) gens /\
    Forall (fun e => is_generate e = true) gens /\
    match last_generated gens with
    | Some last => image' = last
    | None => n = 0 /\ image' = image
    end.
Proof.
  revert image s. induction n as [|n IH]; intros image s; simpl.
  - exists [], image, (generator s). rewrite app_nil_r.
    destruct s; simpl. by repeat split.
  - unfold bind.
    destruct (generate_spec args s) as (image1 & g1 & ->).
    destruct (IH image1 (mkState g1 (clock_reads s)
                (trace s ++ [EvGenerate prompt (Cli.num_inference_steps args)
                               (Cli.width args) (Cli.height args) image1])))
      as (gens & image' & g & -> & Hlen & Hgens & Hisgen & Hlast).
    simpl. eexists (_ :: gens), image', g.
    rewrite <- app_assoc. simpl.
    split; [reflexivity|]. split; [by rewrite Hlen|].
    split; [constructor; [by eexists|done]|].
    split; [by constructor|].
    change (EvGenerate prompt (Cli.num_inference_steps args) (Cli.width args)
              (Cli.height args) image1 :: gens)
      with ([EvGenerate prompt (Cli.num_inference_steps args) (Cli.width args)
               (Cli.height args) image1] ++ gens)%list.
    rewrite last_generated_app.
    destruct (last_generated gens); [done|]. simpl. by destruct Hlast.
Qed.

(** A loop that runs at least once ends on a generated image. *)
Lemma generate_loop_last (n : nat) (args : Cli.Args) (image : Image)
    (s : State) :
  exists gens image' g,
    generate_loop (S n) args image s =
      (image', mkState g (clock_reads s) (trace s ++ gens)) /\
    length gens = S n /\
    Forall (generates args) gens /\
    Forall (fun e => is_generate e = true) gens /\
    last_generated gens = Some image'.
Proof.
  destruct (generate_loop_spec (S n) args image s)
    as (gens & image' & g & Hrun & Hlen & Hgens & Hisgen & Hlast).
  exists gens, image', g. repeat split; try done.
  destruct (last_generated gens); [by subst|]. by destruct Hlast.
Qed.

Lemma benchmark_body_spec (args : Cli.Args) (image : Image) (s : State) :
  exists warm timed image' g,
    benchmark_body args image s =
      (image',
       mkState g (S (S (clock_reads s)))
         (trace s ++ warm ++
          timed_events (now (clock_reads s)) (now (S (clock_reads s))) timed))
    /\ length warm = 5 /\ Forall (generates args) warm
    /\ Forall (fun e => is_generate e = true) warm
    /\ length timed = 10 /\ Forall (generates args) timed
    /\ Forall (fun e => is_generate e = true) timed
    /\ last_generated timed = Some image'.
Proof.
  unfold benchmark_body, bind.
  destruct (generate_loop_last 4 args image s)
    as (warm & image1 & g1 & -> & Hwlen & Hwarm & Hwgen & _).
  unfold synchronize, datetime_now, emit, ret.
  cbn [generator clock_reads trace].
  match goal with
  | |- context [generate_loop 10 args image1 ?s1] =>
      destruct (generate_loop_last 9 args image1 s1)
        as (timed & image2 & g2 & -> & Htlen & Htimed & Htgen & Hlast)
  end.
  cbn [generator clock_reads trace]. exists warm, timed, image2, g2.
  split; [|done].
  unfold timed_events, printed_average.
  repeat rewrite <- app_assoc. reflexivity.
Qed.

Lemma generate_to_save_spec (args : Cli.Args) (s : State) :
  exists first image0 bench image,
    trace (snd (bind (generate args)
                  (fun image =>
                     bind (if Cli.benchmark args
                           then benchmark_body args image else ret image)
                          (fun image => emit (EvSave image result_path))) s)) =
      trace s ++ [first] ++ bench ++ [EvSave image result_path] /\
    generated_part args (clock_reads s) first image0 bench image.
Proof.
  unfold bind, generated_part.
  destruct (generate_spec args s) as (image0 & g0 & ->).
  destruct (Cli.benchmark args).
  - match goal with
    | |- context [benchmark_body args image0 ?s1] =>
        destruct (benchmark_body_spec args image0 s1)
          as (warm & timed & image & g & -> & Hspec)
    end.
    unfold emit. cbn [generator clock_reads trace snd].
    exists (EvGenerate prompt (Cli.num_inference_steps args) (Cli.width args)
              (Cli.height args) image0), image0,
           (warm ++ timed_events (now (clock_reads s))
                      (now (S (clock_reads s))) timed), image.
    split; [by rewrite <- !app_assoc|].
    split; [reflexivity|]. exists warm, timed. split; [reflexivity|exact Hspec].
  - unfold ret, emit. cbn [generator clock_reads trace snd].
    exists (EvGenerate prompt (Cli.num_inference_steps args) (Cli.width args)
              (Cli.height args) image0), image0, [], image0.
    split; [by rewrite <- !app_assoc|]. split; [reflexivity|]. split; reflexivity.
Qed.

(** The whole trace of a run. *)
Lemma run_spec (args : Cli.Args) :
  exists first image0 bench image,
    run args =
      [EvSetEnv "FLAGS_use_cuda_managed_memory" "true";
       EvFromPretrained model_path] ++
      setup_events args ++ [first] ++ bench ++ [EvSave image result_path] /\
    generated_part args 0 first image0 bench image.
Proof.
  unfold run, main, setup_events.
  unfold bind at 1 2 3 4. unfold set_env, emit, ret, initial.
  destruct (Cli.inference_optimize args),
           (Cli.inference_optimize_triton args);
    cbn [generator clock_reads trace];
    match goal with
    | |- context [snd (bind (generate args) ?k ?s)] =>
        destruct (generate_to_save_spec args s)
          as (first & image0 & bench & image & Htrace & Hpart)
    end;
    exists first, image0, bench, image;
    (split; [|exact Hpart]);
    (etransitivity; [exact Htrace|]);
    cbn [trace]; rewrite <- ?app_assoc; reflexivity.
Qed.

Lemma last_generated_timed_events (starttime endtime : datetime)
    (timed : list Event) :
  last_generated (timed_events starttime endtime timed) =
  last_generated timed.
Proof.
  unfold timed_events. rewrite !last_generated_app.
  by destruct (last_generated timed).
Qed.

Lemma filter_save_generations (gens : list Event) :
  Forall (fun e => is_generate e = true) gens ->
  List.filter is_save gens = [].
Proof.
  induction 1 as [|e gens He _ IH]; [done|].
  simpl. rewrite IH. by destruct e.
Qed.

Lemma filter_save_setup (args : Cli.Args) :
  List.filter is_save (setup_events args) = [].
Proof.
  unfold setup_events.
  by destruct (Cli.inference_optimize args),
              (Cli.inference_optimize_triton args).
Qed.

(** C5.  With [--benchmark] true the run is: the set-up and the first
generation; 5 warm-up generations; a synchronisation and the first clock
reading; exactly 10 generations of the same prompt and sizes; a
synchronisation and the second clock reading; the printing of the average;
the memory report; the saving of the last image.  The average printed is
the script's [time_ms] of the two readings divided by 10, and it is the time
that elapsed between the two readings, in milliseconds, divided by 10
exactly when that time is at least zero and less than one day. *)
Theorem benchmark_run (args : Cli.Args) :
  Cli.benchmark args = true ->
  exists first warm timed image ave,
    run args =
      [EvSetEnv "FLAGS_use_cuda_managed_memory" "true";
       EvFromPretrained model_path] ++
      setup_events args ++ [first] ++ warm ++
      [EvSynchronize; EvNow (now 0)] ++ timed ++
      [EvSynchronize; EvNow (now 1);
       EvPrintAve ave;
       EvPrintMem cuda_mem_after_used;
       EvSave image result_path] /\
    generates args first /\
    length warm = 5 /\ Forall (generates args) warm /\
    length timed = 10 /\ Forall (generates args) timed /\
    last_generated timed = Some image /\
    ave = (time_ms (datetime_sub (now 1) (now 0)) / inject_Z 10)%Q /\
    ((ave == (inject_Z (now 1 - now 0) / inject_Z 1000) / inject_Z 10)%Q
     <-> (0 <= now 1 - now 0 < us_per_day)%Z).
Proof.
  intros Hbench.
  destruct (run_spec args)
    as (first & image0 & bench & image & Hrun & Hfirst & Hpart).
  rewrite Hbench in Hpart.
  destruct Hpart as (warm & timed & -> & Hwlen & Hwarm & _ & Htlen & Htimed
                     & _ & Hlast).
  exists first, warm, timed, image, (printed_average (now 0) (now 1)).
  split.
  - rewrite Hrun. unfold timed_events.
    rewrite <- !app_assoc. reflexivity.
  - split; [by exists image0|].
    split; [exact Hwlen|]. split; [exact Hwarm|].
    split; [exact Htlen|]. split; [exact Htimed|].
    split; [exact Hlast|]. split; [reflexivity|].
    apply TimeFacts.printed_average_elapsed.
Qed.

(** Once [parse_args] has returned [args], the run loads the pipeline,
then generates an image, then, when and only when [--benchmark] is true,
makes the timed repeated calls, and ends by saving the image of the last
generation under the result name; the trace holds exactly one save, and it
is its last event. *)
Lemma run_order (args : Cli.Args) :
  exists first bench image,
    run args =
      [EvSetEnv "FLAGS_use_cuda_managed_memory" "true";
       EvFromPretrained model_path] ++
      setup_events args ++ [first] ++ bench ++ [EvSave image result_path] /\
    Forall (fun e => exists key value, e = EvSetEnv key value)
           (setup_events args) /\
    generates args first /\
    Forall (fun e => is_generate e = true \/ is_timing e = true) bench /\
    (Cli.benchmark args = true ->
       Exists (fun e => is_timing e = true) bench /\ length bench = 21) /\
    (Cli.benchmark args = false -> bench = []) /\
    last_generated (run args) = Some image /\
    List.filter is_save (run args) = [EvSave image result_path].
Proof.
  destruct (run_spec args)
    as (first & image0 & bench & image & Hrun & Hfirst & Hpart).
  exists first, bench, image.
  assert (Hsetup : Forall (fun e => exists key value, e = EvSetEnv key value)
                          (setup_events args)).
  { unfold setup_events.
    destruct (Cli.inference_optimize args),
             (Cli.inference_optimize_triton args);
      repeat first [apply Forall_nil_2 | apply Forall_cons_2];
      by do 2 eexists. }
  assert (Hbench : Forall (fun e => is_generate e = true \/ is_timing e = true)
                     bench /\
                   List.filter is_save bench = [] /\
                   last_generated ([first] ++ bench) = Some image /\
                   (Cli.benchmark args = true ->
                      Exists (fun e => is_timing e = true) bench /\
                      length bench = 21) /\
                   (Cli.benchmark args = false -> bench = [])).
  { subst first. destruct (Cli.benchmark args).
    - destruct Hpart as (warm & timed & -> & Hwlen & _ & Hwarm & Htlen & _
                         & Htimed & Hlast).
      split; [|split; [|split; [|split]]].
      + apply Forall_app. split; [by eapply Forall_impl; [exact Hwarm|left]|].
        unfold timed_events.
        repeat first [apply Forall_nil_2 | apply Forall_cons_2
                     | apply Forall_app; split ];
          try (by right).
        by eapply Forall_impl; [exact Htimed|left].
      + rewrite List.filter_app, (filter_save_generations _ Hwarm).
        unfold timed_events. simpl.
        rewrite List.filter_app, (filter_save_generations _ Htimed). done.
      + rewrite !last_generated_app, last_generated_timed_events, Hlast. done.
      + intros _. split.
        * apply Exists_app. right. unfold timed_events. by constructor.
        * unfold timed_events. rewrite !length_app, Hwlen, Htlen. done.
      + discriminate.
    - destruct Hpart as [-> ->]. repeat split; try done; discriminate. }
  destruct Hbench as (Hb1 & Hb2 & Hb3 & Hb4 & Hb5).
  split; [exact Hrun|]. split; [exact Hsetup|].
  split; [by exists image0|]. split; [exact Hb1|].
  split; [exact Hb4|]. split; [exact Hb5|]. split.
  - assert (Hshape : run args =
              (([EvSetEnv "FLAGS_use_cuda_managed_memory" "true";
                 EvFromPretrained model_path] ++ setup_events args) ++
               ([first] ++ bench)) ++ [EvSave image result_path]).
    { rewrite Hrun, <- !app_assoc. reflexivity. }
    rewrite Hshape.
    rewrite (last_generated_app _ [EvSave image result_path]).
    simpl (last_generated [EvSave image result_path]).
    rewrite (last_generated_app _ ([first] ++ bench)). by rewrite Hb3.
  - rewrite Hrun. rewrite !List.filter_app, filter_save_setup, Hb2.
    subst first. reflexivity.
Qed.

End Facts.
End ScriptFacts.

(* ===================================================================== *)
(** * The theorems on the sample inputs *)
(* ===================================================================== *)

Module OnSample.
Import Script.

(** In the sample interpretation the two forms of GELU differ at 14 and 26,
and [forward] of a module with [approximate = "tanh"] is not
[self.gelu(self.proj(h))]. *)
Example GELU_forward_tanh_differs :
  @GELU.forward _ Sample.externals true
     (GELU.mk Sample.linear "tanh") Sample.input =
    Some (@Tensor.mk Sample.scalars 2 [[14; 26]]%Z) /\
  GELU.gelu (GELU.mk Sample.linear "tanh")
    <$> Linear.forward Sample.linear Sample.input =
    Some (@Tensor.mk Sample.scalars 2 [[196; 676]]%Z).
Proof. split; by vm_compute. Qed.

(** The operator of the static graph branch has lost [dequant_scales]. *)
Example compute_activation_static_drops_dequant_scales :
  op_inputs (@GELU.compute_activation_op Sample.scalars true
               Sample.input None (Some Sample.input01) None None
               "gelu" "default" (-1) 0 0 0) !! "dequant_scales"
    = Some Sample.input01 /\
  op_inputs (@GELU.compute_activation_op Sample.scalars false
               Sample.input None (Some Sample.input01) None None
               "gelu" "default" (-1) 0 0 0) !! "dequant_scales"
    = None.
Proof. split; by vm_compute. Qed.

Lemma GEGLU_forward_correct_witness :
  exists out,
    @GEGLU.forward _ Sample.externals (GEGLU.mk Sample.linear)
       Sample.input 1%Z = Some out /\
    Tensor.last_dim out = 1 /\
    Tensor.cell out 0 0 = Some 364%Z.
Proof.
  destruct (@GEGLUFacts.GEGLU_forward_correct _ Sample.externals
              (GEGLU.mk Sample.linear) Sample.input 1%Z
              (@Tensor.mk Sample.scalars 2 [[14; 26]]%Z) 1
              eq_refl eq_refl)
    as (first_half & gate & out & _ & Hfwd & _ & _ & _ & Hdim & _ & Hcells).
  exists out. split; [exact Hfwd|]. split; [exact Hdim|].
  destruct (Hcells 0 0 (Nat.lt_0_succ 0)) as (_ & _ & Hcell).
  exact (Hcell 14%Z 26%Z eq_refl eq_refl).
Defined.

Lemma ApproximateGELU_forward_correct_witness :
  exists out,
    @ApproximateGELU.forward Sample.scalars
       (ApproximateGELU.mk Sample.linear) Sample.input = Some out /\
    Tensor.cell out 0 1 = Some 26%Z.
Proof.
  destruct (@ApproximateGELUFacts.ApproximateGELU_forward_correct
              Sample.scalars (ApproximateGELU.mk Sample.linear) Sample.input
              (@Tensor.mk Sample.scalars 2 [[14; 26]]%Z) eq_refl)
    as (out & Hfwd & _ & _ & _ & Hcells).
  exists out. split; [exact Hfwd|].
  exact (Hcells 0 1 26%Z eq_refl).
Defined.

Lemma forward_gelu_proj_both_witness :
  Tensor.F_gelu false (@Tensor.mk Sample.scalars 2 [[0; 1]]%Z) =
  Tensor.F_gelu true (@Tensor.mk Sample.scalars 2 [[0; 1]]%Z).
Proof.
  exact (@GELUFacts.forward_gelu_proj_both _ Sample.externals true
           Sample.linear01 Sample.input01
           (@Tensor.mk Sample.scalars 2 [[0; 1]]%Z)
           eq_refl eq_refl eq_refl).
Defined.

Lemma benchmark_run_witness :
  exists (warm timed : list (@Event Sample.world)) (ave : Q),
    length warm = 5 /\ length timed = 10 /\
    In (EvPrintAve ave) (@run Sample.world Sample.benchmark_args) /\
    (ave == inject_Z 2500)%Q.
Proof.
  destruct (@ScriptFacts.benchmark_run Sample.world Sample.benchmark_args
              eq_refl)
    as (first & warm & timed & image & ave & Hrun & _ & Hwarm & _ & Htimed
        & _ & _ & Have & Helapsed).
  exists warm, timed, ave. split; [exact Hwarm|]. split; [exact Htimed|].
  split.
  - rewrite Hrun.
    apply in_app_iff; right. apply in_app_iff; right.
    apply in_app_iff; right. apply in_app_iff; right.
    apply in_app_iff; right. apply in_app_iff; right.
    right. right. left. reflexivity.
  - rewrite (proj2 Helapsed); [reflexivity|].
    split; [discriminate|reflexivity].
Defined.

End OnSample.

(* ===================================================================== *)
(** * Further properties of the name lookups *)
(* ===================================================================== *)

Module StrFacts.

Lemma lower_app (a b : string) :
  Str.lower (a ++ b) = Str.lower a ++ Str.lower b.
Proof. induction a as [|c a IH]; simpl; [done|]. by rewrite IH. Qed.

Lemma lower_ascii_idempotent (c : ascii) :
  Str.lower_ascii (Str.lower_ascii c) = Str.lower_ascii c.
Proof. by destruct c as [[] [] [] [] [] [] [] []]. Qed.

Lemma lower_idempotent (s : string) : Str.lower (Str.lower s) = Str.lower s.
Proof.
  induction s as [|c s IH]; simpl; [done|].
  by rewrite lower_ascii_idempotent, IH.
Qed.

End StrFacts.

Module LookupFacts.
Import Activations Cli.

(** The dictionary maps different names to different objects. *)
Lemma ACTIVATION_FUNCTIONS_injective (k1 k2 : string) (layer : Layer) :
  ACTIVATION_FUNCTIONS !! k1 = Some layer ->
  ACTIVATION_FUNCTIONS !! k2 = Some layer ->
  k1 = k2.
Proof.
  intros H1 H2.
  apply elem_of_list_to_map_2 in H1. apply elem_of_list_to_map_2 in H2.
  unfold ACTIVATION_FUNCTIONS_items in *.
  rewrite !elem_of_cons, elem_of_nil in H1, H2.
  destruct H1 as [H1|[H1|[H1|[H1|[H1|[]]]]]];
    destruct H2 as [H2|[H2|[H2|[H2|[H2|[]]]]]];
    congruence.
Qed.

Lemma get_activation_lookup (act_fn : string) (layer : Layer) :
  get_activation act_fn = Ok layer ->
  ACTIVATION_FUNCTIONS !! Str.lower act_fn = Some layer.
Proof.
  destruct (ACTIVATION_FUNCTIONS !! Str.lower act_fn) as [l|] eqn:E.
  - rewrite (ActivationsFacts.get_activation_known _ _ E). congruence.
  - by rewrite (ActivationsFacts.get_activation_unknown _ E).
Qed.

(** Two names give the same layer object only when they are the same name
up to case: no two entries of the dictionary share an object, while every
call with one name returns that name's one object. *)
Theorem get_activation_same_object (name1 name2 : string) (layer : Layer) :
  get_activation name1 = Ok layer ->
  get_activation name2 = Ok layer ->
  Str.lower name1 = Str.lower name2.
Proof.
  intros H1 H2. apply get_activation_lookup in H1, H2.
  by eapply ACTIVATION_FUNCTIONS_injective.
Qed.

(** Lower casing the name first changes nothing, for a known and for an
unknown name alike. *)
Lemma get_activation_lower (act_fn : string) :
  get_activation (Str.lower act_fn) = get_activation act_fn.
Proof.
  unfold get_activation. by rewrite StrFacts.lower_idempotent.
Qed.

Lemma not_ends_with_space (a : string) :
  (a ++ " ")%string ∉ ["true"; "1"; "yes"].
Proof.
  rewrite !elem_of_cons, elem_of_nil.
  destruct a as [|? [|? [|? [|? [|? ?]]]]]; simpl;
    intros [H|[H|[H|[]]]]; discriminate H.
Qed.

(** The converter of the boolean flags does not trim its argument: a value
with a space in front or at the end converts to [False], whatever is in
between. *)
Theorem bool_flag_type_no_trim (s : string) :
  bool_flag_type (" " ++ s) = false /\ bool_flag_type (s ++ " ") = false.
Proof.
  unfold bool_flag_type, Str.str. split; apply bool_decide_eq_false_2.
  - simpl. rewrite !elem_of_cons, elem_of_nil.
    intros [H|[H|[H|[]]]]; discriminate H.
  - rewrite StrFacts.lower_app. apply not_ends_with_space.
Qed.

End LookupFacts.

(* ===================================================================== *)
(** * Further properties of the activation modules *)
(* ===================================================================== *)

Module ModuleFacts.
Section Facts.
Context `{Externals}.

(** The constructor of [nn.Linear] gives the parameters their shapes. *)
Lemma Linear_init_wf (ini : Init.Initializer) (n m : nat) :
  Linear.wf (Init.Linear_init ini n m) /\
  Linear.in_features (Init.Linear_init ini n m) = n /\
  Linear.out_features (Init.Linear_init ini n m) = m.
Proof.
  unfold Linear.wf, Init.Linear_init, Tensor.wf; simpl.
  rewrite !length_map, !length_seq. repeat split.
  rewrite Forall_fmap. apply Forall_forall. intros i _; simpl.
  by rewrite length_map, length_seq.
Qed.

(** A projection refuses every input whose last axis is not its
[in_features]. *)
Lemma Linear_forward_mismatch (l : Linear.t) (x : Tensor.t) :
  Linear.wf l ->
  Tensor.last_dim x <> Linear.in_features l ->
  Linear.forward l x = None.
Proof.
  intros (Hrows & _) Hx. unfold Linear.forward, Tensor.matmul.
  rewrite Hrows. by destruct (Nat.eqb_spec (Tensor.last_dim x)
                                 (Linear.in_features l)).
Qed.

(** A product with an elementwise image of the same tensor is elementwise. *)
Lemma mul_map_elem (f : scalar -> scalar) (x : Tensor.t) :
  Tensor.mul x (Tensor.map_elem f x) =
  Tensor.map_elem (fun v => smul v (f v)) x.
Proof.
  unfold Tensor.mul, Tensor.map_elem; simpl. f_equal.
  induction (Tensor.rows x) as [|r rs IH]; simpl; [done|].
  rewrite IH. f_equal.
  clear. induction r as [|v r IH]; simpl; [done|]. by rewrite IH.
Qed.

(** [ApproximateGELU] as one elementwise function of the projection. *)
Lemma ApproximateGELU_forward_map (self : ApproximateGELU.t) (x : Tensor.t) :
  ApproximateGELU.forward self x =
  Tensor.map_elem (fun v => smul v (sigmoid_s (smul lit_1_702 v)))
    <$> Linear.forward (ApproximateGELU.proj self) x.
Proof.
  unfold ApproximateGELU.forward.
  destruct (Linear.forward _ x) as [y|]; simpl; [|done].
  f_equal. unfold Tensor.F_sigmoid, Tensor.scale.
  replace (Tensor.map_elem sigmoid_s (Tensor.map_elem (smul lit_1_702) y))
    with (Tensor.map_elem (fun v => sigmoid_s (smul lit_1_702 v)) y).
  - apply mul_map_elem.
  - unfold Tensor.map_elem; simpl. f_equal.
    rewrite <- list_fmap_compose. apply list_fmap_ext. intros _ r _; simpl.
    by rewrite <- list_fmap_compose.
Qed.

(** A module built by [ApproximateGELU(dim_in, dim_out)] accepts a tensor
exactly when its last axis is [dim_in], and then returns a well formed
tensor with as many rows and last axis [dim_out]; an empty batch gives an
empty batch. *)
Theorem ApproximateGELU_init_forward (ini : Init.Initializer)
    (dim_in dim_out : nat) (x : Tensor.t) :
  let self := Init.ApproximateGELU_init ini dim_in dim_out in
  (Tensor.last_dim x = dim_in ->
   exists out,
     ApproximateGELU.forward self x = Some out /\
     Tensor.wf out /\
     Tensor.last_dim out = dim_out /\
     length (Tensor.rows out) = length (Tensor.rows x)) /\
  (Tensor.last_dim x <> dim_in -> ApproximateGELU.forward self x = None).
Proof.
  intros self.
  destruct (Linear_init_wf ini dim_in dim_out) as (Hwf & Hin & Hout).
  rewrite ApproximateGELU_forward_map. simpl. split.
  - intros Hx.
    destruct (TensorFacts.Linear_forward_shape
                (Init.Linear_init ini dim_in dim_out) x Hwf)
      as (y & -> & Hwfy & Hdim & Hrows); [by rewrite Hin|].
    eexists. split; [reflexivity|]. unfold Tensor.map_elem; simpl.
    rewrite length_map. repeat split; [|congruence|done].
    unfold Tensor.wf; simpl. rewrite Forall_fmap.
    eapply Forall_impl; [exact Hwfy|]. intros r Hr; simpl.
    by rewrite length_map.
  - intros Hx. rewrite Linear_forward_mismatch; [done|done|by rewrite Hin].
Qed.

(** [nn.Linear] works row by row. *)
Lemma Linear_forward_app (l : Linear.t) (d : nat)
    (rows1 rows2 : list (list scalar)) (y1 y2 : Tensor.t) :
  Linear.forward l (Tensor.mk d rows1) = Some y1 ->
  Linear.forward l (Tensor.mk d rows2) = Some y2 ->
  Linear.forward l (Tensor.mk d (rows1 ++ rows2)) =
    Some (Tensor.mk (Tensor.last_dim y1) (Tensor.rows y1 ++ Tensor.rows y2)).
Proof.
  unfold Linear.forward, Tensor.matmul, Tensor.add_bias; simpl.
  destruct (Nat.eqb d _); simpl; [|done].
  destruct (Nat.eqb _ _); simpl; [|done].
  intros [= <-] [= <-]; simpl. by rewrite !map_app.
Qed.

(** Rows of a batch do not influence one another in [ApproximateGELU]: the
result for two batches put one after the other is the two results put one
after the other. *)
Theorem ApproximateGELU_forward_app (self : ApproximateGELU.t) (d : nat)
    (rows1 rows2 : list (list scalar)) (out1 out2 : Tensor.t) :
  ApproximateGELU.forward self (Tensor.mk d rows1) = Some out1 ->
  ApproximateGELU.forward self (Tensor.mk d rows2) = Some out2 ->
  ApproximateGELU.forward self (Tensor.mk d (rows1 ++ rows2)) =
    Some (Tensor.mk (Tensor.last_dim out1)
            (Tensor.rows out1 ++ Tensor.rows out2)).
Proof.
  rewrite !ApproximateGELU_forward_map.
  destruct (Linear.forward _ (Tensor.mk d rows1)) as [y1|] eqn:H1; [|done].
  destruct (Linear.forward _ (Tensor.mk d rows2)) as [y2|] eqn:H2; [|done].
  rewrite (Linear_forward_app _ _ _ _ _ _ H1 H2). simpl.
  intros [= <-] [= <-]. unfold Tensor.map_elem; simpl.
  by rewrite map_app.
Qed.

End Facts.
End ModuleFacts.

Module GatedFacts.
Section Facts.
Context `{Externals}.

Lemma Linear_forward_last_dim (l : Linear.t) (x y : Tensor.t) :
  Linear.forward l x = Some y ->
  Tensor.last_dim y = Tensor.last_dim (Linear.weight l).
Proof.
  unfold Linear.forward, Tensor.matmul, Tensor.add_bias.
  destruct (Nat.eqb _ _); simpl; [|done].
  destruct (Nat.eqb _ _); simpl; [|done].
  by intros [= <-].
Qed.

(** The rows of [hidden_states * F.gelu(gate)] for the two halves of a
tensor. *)
Lemma gated_rows (projected first_half gate : Tensor.t) :
  Tensor.chunk2 projected = Some (first_half, gate) ->
  Tensor.mul first_half (GEGLU.gelu gate) =
  Tensor.mk (Nat.div2 (Tensor.last_dim projected))
    (map (fun r =>
            zip_with smul
              (take (Nat.div2 (Tensor.last_dim projected)) r)
              (map (gelu_s false)
                   (drop (Nat.div2 (Tensor.last_dim projected)) r)))
         (Tensor.rows projected)).
Proof.
  unfold Tensor.chunk2. destruct (Nat.even _); [|done].
  intros [= <- <-].
  unfold Tensor.mul, GEGLU.gelu, Tensor.F_gelu, Tensor.map_elem; simpl.
  f_equal. rewrite <- list_fmap_compose.
  rewrite zip_with_fmap_l, zip_with_fmap_r, zip_with_diag. done.
Qed.

(** With [nn.Linear] as the projection class [scale] is not passed on, and
the result does not depend on it. *)
Theorem GEGLU_forward_scale_unused (self : GEGLU.t) (h : Tensor.t)
    (scale1 scale2 : scalar) :
  USE_PEFT_BACKEND = true ->
  GEGLU.forward self h scale1 = GEGLU.forward self h scale2.
Proof. intros Hpeft. unfold GEGLU.forward. by rewrite Hpeft. Qed.

(** With [nn.Linear] as the projection class, a module built by
[GEGLU(dim_in, dim_out)] accepts a tensor exactly when its last axis is
[dim_in]; the split never fails, and the result is a well formed tensor
with as many rows and last axis [dim_out]. *)
Theorem GEGLU_init_forward (ini : Init.Initializer) (dim_in dim_out : nat)
    (h : Tensor.t) (scale : scalar) :
  USE_PEFT_BACKEND = true ->
  let self := Init.GEGLU_init ini dim_in dim_out in
  (Tensor.last_dim h = dim_in ->
   exists out,
     GEGLU.forward self h scale = Some out /\
     Tensor.wf out /\
     Tensor.last_dim out = dim_out /\
     length (Tensor.rows out) = length (Tensor.rows h)) /\
  (Tensor.last_dim h <> dim_in -> GEGLU.forward self h scale = None).
Proof.
  intros Hpeft self.
  destruct (ModuleFacts.Linear_init_wf ini dim_in (dim_out * 2))
    as (Hwf & Hin & Hout).
  unfold GEGLU.forward, GEGLU.proj_call. rewrite Hpeft. simpl. split.
  - intros Hh.
    destruct (TensorFacts.Linear_forward_shape
                (Init.Linear_init ini dim_in (dim_out * 2)) h Hwf)
      as (y & -> & Hwfy & Hdim & Hrows); [by rewrite Hin|].
    simpl. rewrite Hout in Hdim.
    assert (Hdim2 : Tensor.last_dim y = 2 * dim_out) by lia.
    destruct (TensorFacts.chunk2_double y dim_out Hdim2)
      as (lo & hi & Hchunk & _).
    rewrite Hchunk; simpl. eexists. split; [reflexivity|].
    rewrite (gated_rows _ _ _ Hchunk).
    rewrite Hdim2, TensorFacts.div2_double; simpl.
    rewrite length_map. repeat split; [|done].
    unfold Tensor.wf; simpl. rewrite Forall_fmap.
    eapply Forall_impl; [exact Hwfy|]. intros r Hr; simpl; cbv beta in Hr.
    rewrite length_zip_with, length_take, length_map, length_drop. lia.
  - intros Hh.
    rewrite ModuleFacts.Linear_forward_mismatch; [done|done|by rewrite Hin].
Qed.

(** Rows of a batch do not influence one another in [GEGLU] either. *)
Theorem GEGLU_forward_app (self : GEGLU.t) (d : nat)
    (rows1 rows2 : list (list scalar)) (scale : scalar)
    (out1 out2 : Tensor.t) :
  USE_PEFT_BACKEND = true ->
  GEGLU.forward self (Tensor.mk d rows1) scale = Some out1 ->
  GEGLU.forward self (Tensor.mk d rows2) scale = Some out2 ->
  GEGLU.forward self (Tensor.mk d (rows1 ++ rows2)) scale =
    Some (Tensor.mk (Tensor.last_dim out1)
            (Tensor.rows out1 ++ Tensor.rows out2)).
Proof.
  intros Hpeft. unfold GEGLU.forward, GEGLU.proj_call. rewrite Hpeft.
  destruct (Linear.forward _ (Tensor.mk d rows1)) as [y1|] eqn:H1; [|done].
  destruct (Linear.forward _ (Tensor.mk d rows2)) as [y2|] eqn:H2; [|done].
  rewrite (ModuleFacts.Linear_forward_app _ _ _ _ _ _ H1 H2).
  pose proof (Linear_forward_last_dim _ _ _ H1) as Hd1.
  pose proof (Linear_forward_last_dim _ _ _ H2) as Hd2.
  destruct y1 as [n1 r1], y2 as [n2 r2]. simpl in Hd1, Hd2.
  rewrite <- Hd1 in Hd2. subst n2. clear Hd1 H1 H2.
  unfold Tensor.chunk2; simpl.
  destruct (Nat.even n1); simpl; [|done].
  intros [= <-] [= <-]. simpl. f_equal.
  unfold Tensor.mul, GEGLU.gelu, Tensor.F_gelu, Tensor.map_elem; simpl.
  f_equal. rewrite !map_app. apply zip_with_app. by rewrite !length_map.
Qed.

(** [GELU.forward] applies one and the same operator in dynamic and in
static graph mode: it passes no quantisation input. *)
Theorem GELU_forward_mode_independent (self : GELU.t) (h : Tensor.t) :
  GELU.forward true self h = GELU.forward false self h.
Proof.
  destruct (Tensor.matmul h (Linear.weight (GELU.proj self)))
    as [projected|] eqn:Hm.
  - by rewrite !(GELUFacts.forward_op _ _ _ _ Hm).
  - unfold GELU.forward. by rewrite Hm.
Qed.

(** A module built by [GELU(dim_in, dim_out, approximate)] refuses every
input whose last axis is not [dim_in], in both modes and without applying
the operator. *)
Theorem GELU_init_forward_mismatch (ini : Init.Initializer)
    (dim_in dim_out : nat) (approximate : string) (dynamic : bool)
    (h : Tensor.t) :
  Tensor.last_dim h <> dim_in ->
  GELU.forward dynamic (Init.GELU_init ini dim_in dim_out approximate) h
    = None.
Proof.
  intros Hh. unfold GELU.forward, Tensor.matmul; simpl.
  rewrite !length_map, length_seq.
  by destruct (Nat.eqb_spec (Tensor.last_dim h) dim_in).
Qed.

End Facts.
End GatedFacts.

Module GELUInitContract.
Section Facts.
Context `{Externals}.

(** The contract of the fused kernel, as in [GELUContract]. *)
Hypothesis fused_gelu : forall (x : Tensor.t) (b : list scalar),
  run_op (mkOp "fused_bias_act"
            (<["bias" := GELU.vector b]> (<["x" := x]> ∅))
            (FusedBiasAct.attrs "gelu" "default" (-1) 0 0 0)) =
  Tensor.F_gelu false <$> Tensor.add_bias x b.

(** When the fused kernel adds the bias and applies the exact GELU, a
module built by [GELU(dim_in, dim_out, approximate)] returns, on an input
whose last axis is [dim_in] and in both modes, the exact GELU of the
projection, with as many rows and last axis [dim_out], for every value of
[approximate]. *)
Theorem GELU_init_forward_exact (ini : Init.Initializer)
    (dim_in dim_out : nat) (approximate : string) (dynamic : bool)
    (h : Tensor.t) :
  Tensor.last_dim h = dim_in ->
  exists y out,
    Linear.forward (Init.Linear_init ini dim_in dim_out) h = Some y /\
    GELU.forward dynamic (Init.GELU_init ini dim_in dim_out approximate) h
      = Some out /\
    out = Tensor.F_gelu false y /\
    Tensor.last_dim out = dim_out /\
    length (Tensor.rows out) = length (Tensor.rows h).
Proof.
  intros Hh.
  destruct (ModuleFacts.Linear_init_wf ini dim_in dim_out)
    as (Hwf & Hin & Hout).
  destruct (TensorFacts.Linear_forward_shape
              (Init.Linear_init ini dim_in dim_out) h Hwf)
    as (y & Hy & _ & Hdim & Hrows); [by rewrite Hin|].
  exists y, (Tensor.F_gelu false y).
  split; [exact Hy|]. split.
  - rewrite (GELUContract.forward_exact fused_gelu). simpl. by rewrite Hy.
  - unfold Tensor.F_gelu, Tensor.map_elem; simpl. rewrite length_map.
    repeat split; congruence.
Qed.

End Facts.
End GELUInitContract.

(* ===================================================================== *)
(** * Further properties of the timing arithmetic *)
(* ===================================================================== *)

Module TimeBounds.
Import Script.
Local Open Scope Z_scope.

(** [time_ms] in microseconds is a whole number. *)
Lemma time_ms_microseconds (d : timedelta) :
  (time_ms d ==
   inject_Z (seconds d * 1000000 + microseconds d) / inject_Z 1000)%Q.
Proof.
  unfold time_ms.
  unfold Qeq, Qplus, Qdiv, Qmult, Qinv, inject_Z; simpl. lia.
Qed.

(** Whatever the two clock readings are, the duration the benchmark
computes is at least zero and less than one day, in milliseconds: a clock
that went backwards never shows as a negative time and a run of more than a
day never as more than a day. *)
Theorem time_ms_bounds (starttime endtime : datetime) :
  (0 <= time_ms (datetime_sub endtime starttime))%Q /\
  (time_ms (datetime_sub endtime starttime) < inject_Z 86400000)%Q.
Proof.
  pose proof (TimeFacts.datetime_sub_normal endtime starttime) as Hn.
  cbv zeta in Hn. destruct Hn as [Hs Hus].
  rewrite time_ms_microseconds.
  set (d := datetime_sub endtime starttime) in *. clearbody d.
  unfold Qle, Qlt, Qdiv, Qmult, Qinv, inject_Z; simpl. lia.
Qed.

(** The duration the benchmark computes does not change when the second
reading is moved by a whole number of days. *)
Theorem time_ms_whole_days (starttime endtime : datetime) (n : Z) :
  time_ms (datetime_sub (endtime + n * us_per_day) starttime) =
  time_ms (datetime_sub endtime starttime).
Proof.
  unfold time_ms, datetime_sub; simpl.
  replace (endtime + n * us_per_day - starttime)
    with (endtime - starttime + n * us_per_day) by lia.
  rewrite (Z.mod_add _ n us_per_day) by (unfold us_per_day, us_per_second; lia).
  replace (n * us_per_day) with (n * 86400 * us_per_second)
    by (unfold us_per_day; lia).
  rewrite (Z.mod_add _ (n * 86400) us_per_second)
    by (unfold us_per_second; lia).
  reflexivity.
Qed.

End TimeBounds.

(* ===================================================================== *)
(** * Further properties of the script: what is generated *)
(* ===================================================================== *)

Module ScriptTracking.
Import Script ScriptObs.
Local Open Scope list_scope.
Section Facts.
Context `{World}.

Lemma hoare_bind {A B} (P : State -> Prop) (Q : A -> State -> Prop)
    (R : B -> State -> Prop) (m : M A) (k : A -> M B) :
  hoare P m Q -> (forall a, hoare (Q a) (k a) R) -> hoare P (bind m k) R.
Proof.
  intros Hm Hk s Hs. unfold bind. specialize (Hm s Hs).
  destruct (m s) as [a s']. simpl in Hm. by apply Hk.
Qed.

Lemma hoare_ret {A} (P : State -> Prop) (a : A) :
  hoare P (ret a) (fun b s => b = a /\ P s).
Proof. by intros s Hs. Qed.

Lemma hoare_weaken {A} (P : State -> Prop) (Q Q' : A -> State -> Prop)
    (m : M A) :
  hoare P m Q -> (forall a s, Q a s -> Q' a s) -> hoare P m Q'.
Proof. intros Hm HQ s Hs. apply HQ. by apply Hm. Qed.

Lemma hoare_pre {A} (P P' : State -> Prop) (Q : A -> State -> Prop)
    (m : M A) :
  (forall s, P s -> P' s) -> hoare P' m Q -> hoare P m Q.
Proof. intros HP Hm s Hs. apply Hm. by apply HP. Qed.

Lemma generated_images_app (tr1 tr2 : list Event) :
  generated_images (tr1 ++ tr2) =
  generated_images tr1 ++ generated_images tr2.
Proof. apply omap_app. Qed.

(** An event that is neither a generation nor a save keeps the tracking. *)
Lemma tracked_emit (args : Cli.Args) (n : nat) (e : Event) :
  is_generate e = false -> is_save e = false ->
  hoare (tracked args n) (emit e) (fun _ => tracked args n).
Proof.
  intros Hg Hsv s (Hgen & Himg & Hall & Hsave). unfold emit, tracked; simpl.
  split; [done|]. split; [|split].
  - rewrite generated_images_app, Himg.
    destruct e; try done; simpl; by rewrite app_nil_r.
  - apply Forall_app. split; [done|]. constructor; [|done]. congruence.
  - rewrite List.filter_app, Hsave. simpl. by rewrite Hsv.
Qed.

Lemma tracked_now (args : Cli.Args) (n : nat) :
  hoare (tracked args n) datetime_now (fun _ => tracked args n).
Proof.
  intros s (Hgen & Himg & Hall & Hsave). unfold datetime_now, tracked; simpl.
  split; [done|]. split; [|split].
  - by rewrite generated_images_app, Himg, app_nil_r.
  - apply Forall_app. split; [done|]. by constructor.
  - by rewrite List.filter_app, Hsave.
Qed.

(** A generation is the next pipeline call. *)
Lemma tracked_generate (args : Cli.Args) (n : nat) :
  hoare (tracked args n) (generate args)
    (fun image s => tracked args (S n) s /\ image = nth_image args n).
Proof.
  intros s (Hgen & Himg & Hall & Hsave).
  assert (Hrun : generate args s =
            (nth_image args n,
             mkState (generator_after args (S n)) (clock_reads s)
               (trace s ++
                [EvGenerate prompt (Cli.num_inference_steps args)
                   (Cli.width args) (Cli.height args) (nth_image args n)]))).
  { unfold generate, nth_image. simpl generator_after. rewrite <- Hgen.
    by destruct (pipe _ _ _ _ (generator s)). }
  rewrite Hrun. cbn [fst snd]. unfold tracked. cbn [generator trace].
  split; [|done]. split; [done|]. split; [|split].
  - rewrite generated_images_app, Himg, seq_S, map_app. reflexivity.
  - apply Forall_app. split; [done|]. constructor; [|done].
    intros _. by eexists.
  - by rewrite List.filter_app, Hsave.
Qed.

(** A loop of [k] generations is the next [k] pipeline calls; it leaves the
image of the last one, or the image it was given when [k] is zero. *)
Lemma tracked_loop (args : Cli.Args) (k n : nat) (image0 : Image) :
  hoare (tracked args n) (generate_loop k args image0)
    (fun image s =>
       tracked args (n + k) s /\
       image = match k with
               | O => image0
               | S k' => nth_image args (n + k')
               end).
Proof.
  revert n image0. induction k as [|k IH]; intros n image0.
  - intros s Hs. simpl. by rewrite Nat.add_0_r.
  - simpl. eapply hoare_bind; [apply tracked_generate|].
    intros image s [Hs ->].
    specialize (IH (S n) (nth_image args n) s Hs).
    destruct IH as [Htr Himg].
    replace (n + S k) with (S n + k) by lia. split; [exact Htr|].
    rewrite Himg. destruct k; [by rewrite Nat.add_0_r|].
    f_equal. lia.
Qed.

(** The benchmark body is the pipeline calls 1 to 15. *)
Lemma tracked_benchmark_body (args : Cli.Args) (image0 : Image) :
  hoare (tracked args 1) (benchmark_body args image0)
    (fun image s => tracked args 16 s /\ image = nth_image args 15).
Proof.
  unfold benchmark_body.
  eapply hoare_bind; [apply (tracked_loop args 5 1)|].
  intros image1.
  apply (hoare_pre _ (tracked args 6)); [by intros s [Hs _]|].
  eapply hoare_bind; [by apply tracked_emit|]. intros ?.
  eapply hoare_bind; [apply tracked_now|]. intros starttime.
  eapply hoare_bind; [apply (tracked_loop args 10 6)|].
  intros image2.
  apply (hoare_pre _ (fun s => tracked args 16 s /\
                               image2 = nth_image args 15));
    [by intros s [Hs ->]|].
  eapply hoare_bind.
  { instantiate (1 := fun _ s => tracked args 16 s /\
                                 image2 = nth_image args 15).
    intros s [Hs Himg]. split; [|done]. by apply tracked_emit. }
  intros ?. eapply hoare_bind.
  { instantiate (1 := fun _ s => tracked args 16 s /\
                                 image2 = nth_image args 15).
    intros s [Hs Himg]. split; [|done]. by apply tracked_now. }
  intros endtime. eapply hoare_bind.
  { instantiate (1 := fun _ s => tracked args 16 s /\
                                 image2 = nth_image args 15).
    intros s [Hs Himg]. split; [|done]. by apply tracked_emit. }
  intros ?. eapply hoare_bind.
  { instantiate (1 := fun _ s => tracked args 16 s /\
                                 image2 = nth_image args 15).
    intros s [Hs Himg]. split; [|done]. by apply tracked_emit. }
  intros ?. by intros s Hs.
Qed.

Lemma tracked_initial (args : Cli.Args) : tracked args 0 initial.
Proof. by repeat split. Qed.

(** The whole script: [pipeline_calls] pipeline calls, then the save of
the image of the last one. *)
Lemma tracked_main (args : Cli.Args) :
  exists s0,
    tracked args (pipeline_calls args) s0 /\
    run args =
      trace s0 ++
      [EvSave (nth_image args (pipeline_calls args - 1)) result_path].
Proof.
  unfold run.
  cut (hoare (tracked args 0) (main args)
         (fun _ s => exists s0,
            tracked args (pipeline_calls args) s0 /\
            trace s = trace s0 ++
              [EvSave (nth_image args (pipeline_calls args - 1))
                 result_path])).
  { intros Hmain. apply (Hmain initial (tracked_initial args)). }
  unfold main, set_env.
  eapply hoare_bind; [by apply tracked_emit|]. intros ?.
  eapply hoare_bind; [by apply tracked_emit|]. intros ?.
  eapply hoare_bind.
  { instantiate (1 := fun _ => tracked args 0).
    destruct (Cli.inference_optimize args);
      [by apply tracked_emit|by intros s Hs]. }
  intros ?. eapply hoare_bind.
  { instantiate (1 := fun _ => tracked args 0).
    destruct (Cli.inference_optimize_triton args);
      [by apply tracked_emit|by intros s Hs]. }
  intros ?. eapply hoare_bind; [apply tracked_generate|].
  intros image0.
  apply (hoare_pre _ (fun s => tracked args 1 s /\
                               image0 = nth_image args 0)); [done|].
  eapply hoare_bind.
  { instantiate (1 := fun image s =>
      tracked args (pipeline_calls args) s /\
      image = nth_image args (pipeline_calls args - 1)).
    unfold pipeline_calls. destruct (Cli.benchmark args).
    - apply (hoare_pre _ (tracked args 1)); [by intros s [Hs _]|].
      apply tracked_benchmark_body.
    - by intros s [Hs ->]. }
  intros image s [Hs ->]. exists s. by split.
Qed.

(** The images a run generates are those of the pipeline calls 0, 1, ...
made one after the other from the generator seeded with 42, each call
starting from the generator state the one before left: one call without
[--benchmark], sixteen with it.  The one image saved is the image of the
last call. *)
Theorem run_images (args : Cli.Args) :
  generated_images (run args) =
    map (nth_image args) (seq 0 (pipeline_calls args)) /\
  List.filter is_save (run args) =
    [EvSave (nth_image args (pipeline_calls args - 1)) result_path].
Proof.
  destruct (tracked_main args) as (s0 & (_ & Himg & _ & Hsave) & ->).
  split.
  - by rewrite generated_images_app, Himg, app_nil_r.
  - by rewrite List.filter_app, Hsave.
Qed.

(** Every pipeline call of a run, the first, the warm-up and the timed
ones alike, is made with the one prompt of the script and with the steps,
width and height of the arguments. *)
Theorem run_generations_use_args (args : Cli.Args) :
  Forall (fun e => is_generate e = true -> generates args e) (run args).
Proof.
  destruct (tracked_main args) as (s0 & (_ & _ & Hall & _) & ->).
  apply Forall_app. split; [exact Hall|]. by constructor.
Qed.

Lemma generations_no_set_env (gens : list Event) (key value : string) :
  Forall (fun e => is_generate e = true) gens -> EvSetEnv key value ∉ gens.
Proof.
  rewrite Forall_forall. intros Hgens Hin. by apply Hgens in Hin.
Qed.

(** The environment variables a run sets: [FLAGS_use_cuda_managed_memory]
to [true] always, [INFERENCE_OPTIMIZE] to [True] exactly with
[--inference_optimize], [INFERENCE_OPTIMIZE_TRITON] to [True] exactly with
[--inference_optimize_triton], and nothing else. *)
Theorem run_environment (args : Cli.Args) (key value : string) :
  EvSetEnv key value ∈ run args <->
  (key = "FLAGS_use_cuda_managed_memory" /\ value = "true") \/
  (Cli.inference_optimize args = true /\
   key = "INFERENCE_OPTIMIZE" /\ value = "True") \/
  (Cli.inference_optimize_triton args = true /\
   key = "INFERENCE_OPTIMIZE_TRITON" /\ value = "True").
Proof.
  destruct (ScriptFacts.run_spec args)
    as (first & image0 & bench & image & -> & -> & Hpart).
  assert (Hbench : EvSetEnv key value ∉ bench).
  { destruct (Cli.benchmark args).
    - destruct Hpart as (warm & timed & -> & _ & _ & Hwarm & _ & _ & Htimed
                         & _).
      unfold timed_events. rewrite !elem_of_app.
      pose proof (generations_no_set_env _ key value Hwarm).
      pose proof (generations_no_set_env _ key value Htimed).
      rewrite !elem_of_cons, elem_of_nil. intuition discriminate.
    - destruct Hpart as [-> _]. apply not_elem_of_nil. }
  unfold setup_events. rewrite !elem_of_app, !elem_of_cons, !elem_of_nil.
  destruct (Cli.inference_optimize args),
           (Cli.inference_optimize_triton args);
    rewrite ?elem_of_cons, ?elem_of_nil;
    (split;
     [ intros Hin; intuition (try discriminate; try contradiction);
       match goal with
       | Heq : EvSetEnv _ _ = EvSetEnv _ _ |- _ => injection Heq as -> ->
       end; auto
     | intros Hset; intuition (subst; try discriminate; auto) ]).
Qed.

End Facts.
End ScriptTracking.

(* ===================================================================== *)
(** * The further theorems on the sample inputs *)
(* ===================================================================== *)

Module OnSampleMore.
Import Script ScriptObs.

(** The sample kernel keeps the contract of the fused kernel. *)
Lemma sample_fused_gelu (x : @Tensor.t Sample.scalars) (b : list Z) :
  @run_op _ Sample.externals
    (mkOp "fused_bias_act"
       (<["bias" := @GELU.vector Sample.scalars b]> (<["x" := x]> ∅))
       (FusedBiasAct.attrs "gelu" "default" (-1) 0 0 0)) =
  Tensor.F_gelu false <$> Tensor.add_bias x b.
Proof.
  unfold run_op, Sample.externals, Sample.fused_bias_act_kernel.
  cbn [op_type op_inputs op_attrs].
  change (String.eqb "fused_bias_act" "fused_bias_act") with true.
  cbv iota.
  rewrite (lookup_insert_ne _ "bias" "x") by done.
  rewrite !lookup_insert_eq.
  cbn [mbind option_bind].
  replace (FusedBiasAct.attrs "gelu" "default" (-1) 0 0 0 !! "act_method")
    with (Some (AStr "gelu")) by (by vm_compute).
  unfold GELU.vector. cbn [Tensor.rows hd].
  by destruct (Tensor.add_bias x b).
Qed.

Lemma get_activation_same_object_witness :
  Str.lower "SiLU" = Str.lower "silu".
Proof.
  exact (LookupFacts.get_activation_same_object "SiLU" "silu"
           (Activations.mkLayer Activations.Silu 1) eq_refl eq_refl).
Defined.

Lemma ApproximateGELU_init_forward_witness :
  exists out,
    @ApproximateGELU.forward Sample.scalars
       (Init.ApproximateGELU_init SampleInit.initializer 3 2)
       SampleInit.input3 = Some out /\
    Tensor.last_dim out = 2 /\
    length (Tensor.rows out) = 1.
Proof.
  destruct (@ModuleFacts.ApproximateGELU_init_forward Sample.scalars
              SampleInit.initializer 3 2 SampleInit.input3)
    as [Hok _].
  destruct (Hok eq_refl) as (out & Hout & _ & Hdim & Hrows).
  exists out. by repeat split.
Defined.

Lemma ApproximateGELU_forward_app_witness :
  @ApproximateGELU.forward Sample.scalars
     (ApproximateGELU.mk Sample.linear)
     (@Tensor.mk Sample.scalars 2 [[1; 1]; [0; 1]]%Z) =
  Some (@Tensor.mk Sample.scalars 2 [[14; 26]; [13; 24]]%Z).
Proof.
  exact (@ModuleFacts.ApproximateGELU_forward_app Sample.scalars
           (ApproximateGELU.mk Sample.linear) 2 [[1; 1]]%Z [[0; 1]]%Z
           (@Tensor.mk Sample.scalars 2 [[14; 26]]%Z)
           (@Tensor.mk Sample.scalars 2 [[13; 24]]%Z) eq_refl eq_refl).
Defined.

Lemma GEGLU_forward_scale_unused_witness :
  @GEGLU.forward _ Sample.externals (GEGLU.mk Sample.linear)
     Sample.input 1%Z =
  @GEGLU.forward _ Sample.externals (GEGLU.mk Sample.linear)
     Sample.input 7%Z.
Proof.
  exact (@GatedFacts.GEGLU_forward_scale_unused _ Sample.externals
           (GEGLU.mk Sample.linear) Sample.input 1%Z 7%Z eq_refl).
Defined.

Lemma GEGLU_init_forward_witness :
  exists out,
    @GEGLU.forward _ Sample.externals
       (Init.GEGLU_init SampleInit.initializer 3 2)
       SampleInit.input3 1%Z = Some out /\
    Tensor.last_dim out = 2 /\
    length (Tensor.rows out) = 1.
Proof.
  destruct (@GatedFacts.GEGLU_init_forward _ Sample.externals
              SampleInit.initializer 3 2 SampleInit.input3 1%Z eq_refl)
    as [Hok _].
  destruct (Hok eq_refl) as (out & Hout & _ & Hdim & Hrows).
  exists out. by repeat split.
Defined.

Lemma GEGLU_forward_app_witness :
  @GEGLU.forward _ Sample.externals (GEGLU.mk Sample.linear)
     (@Tensor.mk Sample.scalars 2 [[1; 1]; [0; 1]]%Z) 1%Z =
  Some (@Tensor.mk Sample.scalars 1 [[364]; [312]]%Z).
Proof.
  exact (@GatedFacts.GEGLU_forward_app _ Sample.externals
           (GEGLU.mk Sample.linear) 2 [[1; 1]]%Z [[0; 1]]%Z 1%Z
           (@Tensor.mk Sample.scalars 1 [[364]]%Z)
           (@Tensor.mk Sample.scalars 1 [[312]]%Z)
           eq_refl eq_refl eq_refl).
Defined.

Lemma GELU_init_forward_mismatch_witness :
  @GELU.forward _ Sample.externals true
     (Init.GELU_init SampleInit.initializer 2 2 "none") SampleInit.input3
    = None.
Proof.
  apply (@GatedFacts.GELU_init_forward_mismatch _ Sample.externals
           SampleInit.initializer 2 2 "none" true SampleInit.input3).
  simpl. lia.
Defined.

Lemma GELU_init_forward_exact_witness :
  exists out,
    @GELU.forward _ Sample.externals false
       (Init.GELU_init SampleInit.initializer 3 2 "tanh") SampleInit.input3
      = Some out /\
    Tensor.last_dim out = 2.
Proof.
  destruct (@GELUInitContract.GELU_init_forward_exact _ Sample.externals
              sample_fused_gelu SampleInit.initializer 3 2 "tanh" false
              SampleInit.input3 eq_refl)
    as (y & out & _ & Hout & _ & Hdim & _).
  by exists out.
Defined.

(** A run with the benchmark on the sample pipeline saves image 15. *)
Example run_images_sample :
  List.filter is_save (@run Sample.world Sample.benchmark_args) =
    [@EvSave Sample.world 57 result_path].
Proof. by vm_compute. Qed.

End OnSampleMore.

(* ===================================================================== *)
(** * The script on a command line *)
(* ===================================================================== *)

Module ArgvFacts.
Import Cli Script Argv.
Local Open Scope list_scope.
Section Facts.
Context `{CommandLine} `{World}.

(** Without arguments every attribute has its default. *)
Lemma parse_args_defaults :
  parse_args [] = Some (mkArgs false false false 512 512 50).
Proof. reflexivity. Qed.

(** [--benchmark value] stores what the converter of the flag makes of
[value]. *)
Lemma parse_args_benchmark (value : string) :
  starts_with_dash value = false ->
  parse_args ["--benchmark"; value] =
    Some (mkArgs (bool_flag_type value) false false 512 512 50).
Proof.
  intros Hvalue.
  assert (Hregular : regular ["--benchmark"; value] = true).
  { unfold regular, forallb, regular_token. by rewrite Hvalue. }
  unfold parse_args. rewrite Hregular.
  cbn -[bool_flag_type]. by rewrite Hvalue.
Qed.

(** [-h] and [--help] end the parse wherever they are reached. *)
Lemma parse_args_help :
  parse_args ["--help"] = None /\ parse_args ["-h"] = None.
Proof. split; reflexivity. Qed.

(** A value [int] refuses ends the parse. *)
Lemma parse_args_invalid_height (value : string) :
  starts_with_dash value = false ->
  py_int value = None ->
  parse_args ["--height"; value] = None.
Proof.
  intros Hvalue Hint.
  assert (Hregular : regular ["--height"; value] = true).
  { unfold regular, forallb, regular_token. by rewrite Hvalue. }
  unfold parse_args. rewrite Hregular.
  cbn. rewrite Hvalue. unfold int_type. by rewrite Hint.
Qed.

(** When [parse_args] returns, the script is the run of its result. *)
Lemma script_completed (argv : list string) (args : Args) :
  parse_args argv = Some args -> script argv = Completed (run args).
Proof. intros Hparse. unfold script. by rewrite Hparse. Qed.

(** When [argparse] exits, only the statements before the parse have run. *)
Lemma script_exited (argv : list string) :
  parse_args argv = None -> script argv = Exited startup_events.
Proof. intros Hparse. unfold script. by rewrite Hparse. Qed.

(** C6, amended.  For every command line the script first sets up CUDA
managed memory and loads the pipeline.  When [parse_args] exits (the help,
a missing or refused value, an argument no option takes) the script stops
there: nothing is generated and nothing is saved.  When [parse_args]
returns, the script generates an image, then, when and only when
[--benchmark] parsed to true, makes the timed repeated calls, and ends by
saving the image of the last generation under the result name; the save
then happens exactly once, after all generations. *)
Theorem script_order (argv : list string) :
  (parse_args argv = None /\
   script argv = Exited startup_events /\
   List.filter is_generate (events_of (script argv)) = [] /\
   List.filter is_save (events_of (script argv)) = []) \/
  (exists args first bench image,
     parse_args argv = Some args /\
     script argv =
       Completed (startup_events ++ setup_events args ++ [first] ++ bench ++
                  [EvSave image result_path]) /\
     Forall (fun e => exists key value, e = EvSetEnv key value)
            (setup_events args) /\
     generates args first /\
     Forall (fun e => is_generate e = true \/ is_timing e = true) bench /\
     (benchmark args = true ->
        Exists (fun e => is_timing e = true) bench /\ length bench = 21) /\
     (benchmark args = false -> bench = []) /\
     last_generated (events_of (script argv)) = Some image /\
     List.filter is_save (events_of (script argv)) =
       [EvSave image result_path]).
Proof.
  destruct (parse_args argv) as [args|] eqn:Hparse.
  - right.
    destruct (ScriptFacts.run_order args)
      as (first & bench & image & Hrun & Hsetup & Hfirst & Hbench & Hon
          & Hoff & Hlast & Hsave).
    exists args, first, bench, image.
    rewrite (script_completed _ _ Hparse). simpl events_of.
    split; [reflexivity|]. split; [by rewrite Hrun|].
    split; [exact Hsetup|]. split; [exact Hfirst|]. split; [exact Hbench|].
    split; [exact Hon|]. split; [exact Hoff|]. split; [exact Hlast|].
    exact Hsave.
  - left. rewrite (script_exited _ Hparse). by repeat split.
Qed.

End Facts.
End ArgvFacts.

(* ===================================================================== *)
(** * The command line on the sample inputs *)
(* ===================================================================== *)

Module OnSampleArgv.
Import Cli Script Argv.

(** The claim that every command line ends in one save fails on [--help]:
the pipeline is loaded and then [argparse] exits. *)
Lemma script_help_no_save :
  @script SampleArgv.command_line Sample.world ["--help"] =
    Exited [EvSetEnv "FLAGS_use_cuda_managed_memory" "true";
            EvFromPretrained model_path] /\
  ~ (exists image,
       List.filter is_save
         (events_of (@script SampleArgv.command_line Sample.world ["--help"]))
       = [EvSave image result_path]).
Proof. split; [reflexivity|]. intros [image Hsave]. discriminate Hsave. Qed.

(** So does it on a height that is no number. *)
Example script_invalid_height_no_save :
  @script SampleArgv.command_line Sample.world ["--height"; "abc"] =
    Exited [EvSetEnv "FLAGS_use_cuda_managed_memory" "true";
            EvFromPretrained model_path].
Proof. reflexivity. Qed.

(** A command line that parses: the benchmark is off, one image is
generated and saved. *)
Example script_plain :
  @script SampleArgv.command_line Sample.world
     ["--height"; "768"; "--benchmark"; "no"] =
    Completed
      [EvSetEnv "FLAGS_use_cuda_managed_memory" "true";
       EvFromPretrained model_path;
       @EvGenerate Sample.world prompt 50 512 768 42;
       @EvSave Sample.world 42 result_path].
Proof. by vm_compute. Qed.

(** With the two readings one day and one second apart the benchmark
prints 100 ms for 86401000 ms elapsed. *)
Example benchmark_one_day_one_second :
  exists ave,
    nth_error (@run SampleArgv.slow_world Sample.benchmark_args) 22 =
      Some (EvPrintAve ave) /\
    (ave == inject_Z 100)%Q /\
    (inject_Z (@now SampleArgv.slow_world 1 - @now SampleArgv.slow_world 0)
       / inject_Z 1000 / inject_Z 10 == inject_Z 8640100)%Q.
Proof.
  eexists. split; [vm_compute; reflexivity|]. split; by vm_compute.
Qed.

End OnSampleArgv.
